(** * WebAuthn device model (internal/model/webauthn.go)

    A shallow embedding of the storage model of WebAuthn devices: the user
    adapter handed to the ceremony engine, the constructor of a device from a
    registration, the sign-in updater, and the export codec.

    Layout:
    - Go's standard packages used by the file ([strings], [hex], [time]) are
      modelled by small executable definitions, one module per package;
    - the primitives the model treats as external collaborators (base64 text
      and UUID parsing, formatting and marshalling) are the methods of the
      class [Externals]; the code is written against the class, and
      [Reference.golibs] is an executable instance used to run it;
    - every Go struct is a record inside a module of the struct's name, so
      that fields keep their source names ([WebAuthnDevice.RPID d]);
    - a method with a pointer receiver takes the record and returns the new
      one; a Go [(value, error)] result is a pair whose second component is
      [None] for a nil error. *)

From Stdlib Require Import ZArith List String Ascii Bool Lia.
From Stdlib.Strings Require Import Byte.
Import ListNotations.

Local Open Scope string_scope.
Local Open Scope list_scope.

(** ** Basic Go types *)

(** [[]byte].  A nil slice and an empty one are the same list. *)
Definition bytes := list byte.

(** Go's [error] interface: a non-nil error carries its message; the nil error
    is [None] of [option error]. *)
Definition error := string.

(** [make([]T, n)]: a slice of [n] zero values. *)
Definition make {A : Type} (zero : A) (n : nat) : list A := repeat zero n.

(** [a[i] = v] on a slice.  Go panics when [i] is out of range; the loops below
    only write at indices below the length (see [slice_set_length] and the
    loop lemmas), so the out-of-range case returns the slice as it is. *)
Fixpoint slice_set {A : Type} (i : nat) (v : A) (a : list A) : list A :=
  match a, i with
  | [], _ => []
  | _ :: t, O => v :: t
  | h :: t, S j => h :: slice_set j v t
  end.

(** ** Package [strings] *)

Module strings.

(** [s[:m]] and [s[m:]]. *)
Fixpoint take (m : nat) (s : string) {struct s} : string :=
  match m, s with
  | S k, String c r => String c (take k r)
  | _, _ => EmptyString
  end.

Fixpoint drop (m : nat) (s : string) {struct s} : string :=
  match m, s with
  | S k, String _ r => drop k r
  | _, _ => s
  end.

(** [strings.IndexByte(s, c)]: position of the first [c], [None] for -1. *)
Fixpoint IndexByte (s : string) (c : ascii) : option nat :=
  match s with
  | EmptyString => None
  | String x r =>
      if Ascii.eqb x c then Some O
      else match IndexByte r c with
           | Some m => Some (S m)
           | None => None
           end
  end.

(** [strings.Count(s, sep)] for a one-byte separator. *)
Fixpoint Count (s : string) (c : ascii) : nat :=
  match s with
  | EmptyString => O
  | String x r => if Ascii.eqb x c then S (Count r c) else Count r c
  end.

(** The loop of [genSplit]: at most [n] cuts, then the rest of the string. *)
Fixpoint genSplit (n : nat) (s : string) (sep : ascii) : list string :=
  match n with
  | O => [s]
  | S k =>
      match IndexByte s sep with
      | None => [s]
      | Some m => take m s :: genSplit k (drop (S m) s) sep
      end
  end.

(** [strings.Split(s, sep)] for a one-byte separator [sep] (the source calls
    it with [","]): [n = Count(s, sep) + 1] slots, [n - 1] cuts. *)
Definition Split (s : string) (sep : ascii) : list string :=
  genSplit (Count s sep) s sep.

(** [strings.Join(elems, sep)]. *)
Fixpoint Join (elems : list string) (sep : string) : string :=
  match elems with
  | [] => EmptyString
  | [e] => e
  | e :: rest => String.append e (String.append sep (Join rest sep))
  end.

End strings.

(** ** Bytes as numbers *)

Definition Z_of_byte (b : byte) : Z := Z.of_N (Byte.to_N b).

Definition byte_of_Z (z : Z) : byte :=
  match Byte.of_N (Z.to_N (z mod 256)) with
  | Some b => b
  | None => x00
  end.

(** ** Package [encoding/hex] *)

Module hex.

Definition hextable : list ascii := list_ascii_of_string "0123456789abcdef".

Definition digit (z : Z) : ascii := nth (Z.to_nat z) hextable "0"%char.

(** [hex.EncodeToString]: two lower-case digits per byte, high nibble first. *)
Fixpoint EncodeToString (src : bytes) : string :=
  match src with
  | [] => EmptyString
  | b :: r =>
      String (digit (Z_of_byte b / 16))
        (String (digit (Z_of_byte b mod 16)) (EncodeToString r))
  end.

End hex.

(** ** Package [time] *)

Module time.

(** A [time.Time] is taken as the instant it denotes, the one [Equal]
    compares: the Unix seconds and the nanoseconds within the second.  The
    location and the monotonic clock reading are not part of the model. *)
Record Time : Type := mkTime {
  sec : Z;
  nsec : Z
}.

(** The zero [Time]: January 1, year 1, 00:00:00 UTC. *)
Definition zero : Time := {| sec := (-62135596800)%Z; nsec := 0%Z |}.

(** [t.Unix()] and [t.Nanosecond()]. *)
Definition Time_Unix (t : Time) : Z := sec t.
Definition Time_Nanosecond (t : Time) : Z := nsec t.

(** [int64] wrap-around. *)
Definition wrap64 (z : Z) : Z := ((z + 2 ^ 63) mod 2 ^ 64 - 2 ^ 63)%Z.

(** [time.Unix(sec, nsec)]: a nanosecond count outside [0, 1e9) is carried
    into the seconds. *)
Definition Unix (s n : Z) : Time :=
  let '(s, n) :=
    if ((n <? 0) || (n >=? 1000000000))%Z then
      let q := Z.quot n 1000000000 in
      let s := wrap64 (s + q) in
      let n := wrap64 (n - wrap64 (q * 1000000000)) in
      if (n <? 0)%Z then (wrap64 (s - 1), wrap64 (n + 1000000000))
      else (s, n)
    else (s, n) in
  {| sec := s; nsec := n |}.

End time.

(** ** Package [database/sql] *)

Module NullTime.
Record t : Type := mk { Time : time.Time; Valid : bool }.
Definition zero : t := {| Time := time.zero; Valid := false |}.
End NullTime.

(** ** Package [github.com/google/uuid] *)

Module uuid.

(** [type UUID [16]byte]. *)
Record UUID : Type := mkUUID {
  b0 : byte; b1 : byte; b2 : byte; b3 : byte;
  b4 : byte; b5 : byte; b6 : byte; b7 : byte;
  b8 : byte; b9 : byte; b10 : byte; b11 : byte;
  b12 : byte; b13 : byte; b14 : byte; b15 : byte
}.

(** [uuid.Nil], also the zero value of the type. *)
Definition Nil : UUID :=
  mkUUID x00 x00 x00 x00 x00 x00 x00 x00 x00 x00 x00 x00 x00 x00 x00 x00.

(** [u[:]]. *)
Definition to_bytes (u : UUID) : bytes :=
  [b0 u; b1 u; b2 u; b3 u; b4 u; b5 u; b6 u; b7 u;
   b8 u; b9 u; b10 u; b11 u; b12 u; b13 u; b14 u; b15 u].

Definition of_bytes (l : bytes) : option UUID :=
  match l with
  | [c0; c1; c2; c3; c4; c5; c6; c7; c8; c9; c10; c11; c12; c13; c14; c15] =>
      Some (mkUUID c0 c1 c2 c3 c4 c5 c6 c7 c8 c9 c10 c11 c12 c13 c14 c15)
  | _ => None
  end.

End uuid.

Module NullUUID.
Record t : Type := mk { UUID : uuid.UUID; Valid : bool }.
Definition zero : t := {| UUID := uuid.Nil; Valid := false |}.
End NullUUID.

(** ** External primitives

    Base64 text and the UUID primitives are collaborators of the model, known
    by their Go signatures.  [base64_*] stand for [base64.StdEncoding]'s
    methods, [uuid_Parse] for [uuid.Parse], [uuid_String] and [uuid_ID] for
    the methods of [uuid.UUID], [NullUUID_MarshalBinary] for the method of
    [uuid.NullUUID]. *)
Class Externals : Type := {
  base64_EncodeToString : bytes -> string;
  base64_DecodeString : string -> bytes * option error;
  uuid_Parse : string -> uuid.UUID * option error;
  uuid_String : uuid.UUID -> string;
  uuid_ID : uuid.UUID -> Z;
  NullUUID_MarshalBinary : NullUUID.t -> bytes * option error
}.

(** What the codecs owe their user: decoding an encoding gives the value
    back, without error; and the identifier read off [uuid.Nil] is zero. *)
Class ExternalsLaws (E : Externals) : Prop := {
  base64_roundtrip :
    forall b : bytes, base64_DecodeString (base64_EncodeToString b) = (b, None);
  uuid_roundtrip :
    forall u : uuid.UUID, uuid_Parse (uuid_String u) = (u, None);
  uuid_ID_Nil : uuid_ID uuid.Nil = 0%Z
}.

(** ** Packages [protocol] and [webauthn] of the ceremony engine

    The records carry the fields this file reads or writes; the engine's
    other fields are never touched here and keep their zero values. *)

Module protocol.
Definition AuthenticatorTransport := string.
End protocol.

Module Authenticator.
Record t : Type := mk { AAGUID : bytes; SignCount : Z; CloneWarning : bool }.
Definition zero : t := {| AAGUID := []; SignCount := 0%Z; CloneWarning := false |}.
End Authenticator.

Module Credential.
Record t : Type := mk {
  ID : bytes;
  PublicKey : bytes;
  AttestationType : string;
  Transport : list protocol.AuthenticatorTransport;
  Authenticator : Authenticator.t
}.
Definition zero : t :=
  {| ID := []; PublicKey := []; AttestationType := ""; Transport := [];
     Authenticator := Authenticator.zero |}.
Definition set_Transport (v : list protocol.AuthenticatorTransport) (c : t) : t :=
  {| ID := ID c; PublicKey := PublicKey c; AttestationType := AttestationType c;
     Transport := v; Authenticator := Authenticator c |}.
End Credential.

Module Config.
Record t : Type := mk { RPID : string; RPOrigin : string }.
End Config.

(** ** The repository's types *)

Definition attestationTypeFIDOU2F : string := "fido-u2f".

(** Modelled from the spec: the repository's [Base64] type, declared in a
    file that is not part of the sources at hand.  The data model has kid as
    a "binary credential identifier, canonical base64 form", the codec renders
    it "via its own canonical text form" and reads it back with the standard
    base64 decoder: a wrapper of the raw bytes ([NewBase64], [Bytes]) whose
    [String] is their standard base64 text. *)
Record Base64 : Type := NewBase64 { Base64_Bytes : bytes }.

Definition Base64_String {E : Externals} (b : Base64) : string :=
  base64_EncodeToString (Base64_Bytes b).

(** The struct of a stored device.  [ID] is an [int] and [SignCount] a
    [uint32]; the code copies them and does no arithmetic on them. *)
Module WebAuthnDevice.
Record t : Type := mk {
  ID : Z;
  CreatedAt : time.Time;
  LastUsedAt : NullTime.t;
  RPID : string;
  Username : string;
  Description : string;
  KID : Base64;
  PublicKey : bytes;
  AttestationType : string;
  Transport : string;
  AAGUID : NullUUID.t;
  SignCount : Z;
  CloneWarning : bool
}.

(** The zero value of the struct. *)
Definition zero : t :=
  {| ID := 0%Z; CreatedAt := time.zero; LastUsedAt := NullTime.zero;
     RPID := ""; Username := ""; Description := ""; KID := NewBase64 [];
     PublicKey := []; AttestationType := ""; Transport := "";
     AAGUID := NullUUID.zero; SignCount := 0%Z; CloneWarning := false |}.

(** Field assignments [d.F = v]. *)
Definition set_ID (v : Z) (d : t) : t :=
  mk v (CreatedAt d) (LastUsedAt d) (RPID d) (Username d) (Description d) (KID d)
     (PublicKey d) (AttestationType d) (Transport d) (AAGUID d) (SignCount d)
     (CloneWarning d).
Definition set_CreatedAt (v : time.Time) (d : t) : t :=
  mk (ID d) v (LastUsedAt d) (RPID d) (Username d) (Description d) (KID d)
     (PublicKey d) (AttestationType d) (Transport d) (AAGUID d) (SignCount d)
     (CloneWarning d).
Definition set_LastUsedAt (v : NullTime.t) (d : t) : t :=
  mk (ID d) (CreatedAt d) v (RPID d) (Username d) (Description d) (KID d)
     (PublicKey d) (AttestationType d) (Transport d) (AAGUID d) (SignCount d)
     (CloneWarning d).
Definition set_RPID (v : string) (d : t) : t :=
  mk (ID d) (CreatedAt d) (LastUsedAt d) v (Username d) (Description d) (KID d)
     (PublicKey d) (AttestationType d) (Transport d) (AAGUID d) (SignCount d)
     (CloneWarning d).
Definition set_Username (v : string) (d : t) : t :=
  mk (ID d) (CreatedAt d) (LastUsedAt d) (RPID d) v (Description d) (KID d)
     (PublicKey d) (AttestationType d) (Transport d) (AAGUID d) (SignCount d)
     (CloneWarning d).
Definition set_Description (v : string) (d : t) : t :=
  mk (ID d) (CreatedAt d) (LastUsedAt d) (RPID d) (Username d) v (KID d)
     (PublicKey d) (AttestationType d) (Transport d) (AAGUID d) (SignCount d)
     (CloneWarning d).
Definition set_KID (v : Base64) (d : t) : t :=
  mk (ID d) (CreatedAt d) (LastUsedAt d) (RPID d) (Username d) (Description d) v
     (PublicKey d) (AttestationType d) (Transport d) (AAGUID d) (SignCount d)
     (CloneWarning d).
Definition set_PublicKey (v : bytes) (d : t) : t :=
  mk (ID d) (CreatedAt d) (LastUsedAt d) (RPID d) (Username d) (Description d) (KID d)
     v (AttestationType d) (Transport d) (AAGUID d) (SignCount d)
     (CloneWarning d).
Definition set_AttestationType (v : string) (d : t) : t :=
  mk (ID d) (CreatedAt d) (LastUsedAt d) (RPID d) (Username d) (Description d) (KID d)
     (PublicKey d) v (Transport d) (AAGUID d) (SignCount d)
     (CloneWarning d).
Definition set_Transport (v : string) (d : t) : t :=
  mk (ID d) (CreatedAt d) (LastUsedAt d) (RPID d) (Username d) (Description d) (KID d)
     (PublicKey d) (AttestationType d) v (AAGUID d) (SignCount d)
     (CloneWarning d).
Definition set_AAGUID (v : NullUUID.t) (d : t) : t :=
  mk (ID d) (CreatedAt d) (LastUsedAt d) (RPID d) (Username d) (Description d) (KID d)
     (PublicKey d) (AttestationType d) (Transport d) v (SignCount d)
     (CloneWarning d).
Definition set_SignCount (v : Z) (d : t) : t :=
  mk (ID d) (CreatedAt d) (LastUsedAt d) (RPID d) (Username d) (Description d) (KID d)
     (PublicKey d) (AttestationType d) (Transport d) (AAGUID d) v
     (CloneWarning d).
Definition set_CloneWarning (v : bool) (d : t) : t :=
  mk (ID d) (CreatedAt d) (LastUsedAt d) (RPID d) (Username d) (Description d) (KID d)
     (PublicKey d) (AttestationType d) (Transport d) (AAGUID d) (SignCount d)
     v.
End WebAuthnDevice.

Module WebAuthnUser.
Record t : Type := mk {
  Username : string;
  DisplayName : string;
  Devices : list WebAuthnDevice.t
}.
End WebAuthnUser.

Module WebAuthnDeviceData.
Record t : Type := mk {
  CreatedAt : time.Time;
  LastUsedAt : option time.Time;
  RPID : string;
  Username : string;
  Description : string;
  KID : string;
  PublicKey : string;
  AttestationType : string;
  Transport : string;
  AAGUID : string;
  SignCount : Z;
  CloneWarning : bool
}.
Definition zero : t :=
  {| CreatedAt := time.zero; LastUsedAt := None; RPID := ""; Username := "";
     Description := ""; KID := ""; PublicKey := ""; AttestationType := "";
     Transport := ""; AAGUID := ""; SignCount := 0%Z; CloneWarning := false |}.
End WebAuthnDeviceData.

Module WebAuthnDeviceExport.
Record t : Type := mk { WebAuthnDevices : list WebAuthnDevice.t }.
End WebAuthnDeviceExport.

Module WebAuthnDeviceDataExport.
Record t : Type := mk { WebAuthnDevices : list WebAuthnDeviceData.t }.
End WebAuthnDeviceDataExport.

(** ** Package [gopkg.in/yaml.v3]

    A node handed to [UnmarshalYAML] is known here by what [value.Decode(o)]
    makes of it: the export shape it fills, or the engine's error. *)
Module yaml.
Inductive Node : Type :=
| Mapping (o : WebAuthnDeviceData.t)
| Malformed (e : error).

Definition Decode (value : Node) : WebAuthnDeviceData.t * option error :=
  match value with
  | Mapping o => (o, None)
  | Malformed e => (WebAuthnDeviceData.zero, Some e)
  end.
End yaml.

(** ** The operations *)

Section Operations.

Context {E : Externals}.

(** *** WebAuthnUser *)

Fixpoint HasFIDOU2F_loop (devices : list WebAuthnDevice.t) : bool :=
  match devices with
  | [] => false
  | c :: rest =>
      if String.eqb (WebAuthnDevice.AttestationType c) attestationTypeFIDOU2F
      then true
      else HasFIDOU2F_loop rest
  end.

Definition HasFIDOU2F (w : WebAuthnUser.t) : bool :=
  HasFIDOU2F_loop (WebAuthnUser.Devices w).

Definition WebAuthnID (w : WebAuthnUser.t) : bytes :=
  list_byte_of_string (WebAuthnUser.Username w).

Definition WebAuthnName (w : WebAuthnUser.t) : string := WebAuthnUser.Username w.

Definition WebAuthnDisplayName (w : WebAuthnUser.t) : string :=
  WebAuthnUser.DisplayName w.

Definition WebAuthnIcon (w : WebAuthnUser.t) : string := "".

(** The inner loop of [WebAuthnCredentials]: every non-empty token of
    [transports] is appended to [credential.Transport]. *)
Definition appendTransports (transports : list string) (credential : Credential.t)
  : Credential.t :=
  fold_left
    (fun (c : Credential.t) (t : string) =>
       if String.eqb t "" then c
       else Credential.set_Transport (Credential.Transport c ++ [t]) c)
    transports credential.

(** The credential built from [device] once its aaguid has been marshalled. *)
Definition credentialOf (device : WebAuthnDevice.t) (aaguid : bytes) : Credential.t :=
  let credential :=
    {| Credential.ID := Base64_Bytes (WebAuthnDevice.KID device);
       Credential.PublicKey := WebAuthnDevice.PublicKey device;
       Credential.AttestationType := WebAuthnDevice.AttestationType device;
       Credential.Transport := [];
       Credential.Authenticator :=
         {| Authenticator.AAGUID := aaguid;
            Authenticator.SignCount := WebAuthnDevice.SignCount device;
            Authenticator.CloneWarning := WebAuthnDevice.CloneWarning device |} |} in
  let transports := strings.Split (WebAuthnDevice.Transport device) ","%char in
  appendTransports transports credential.

(** The loop [for i, device := range w.Devices]: [i] is the index of the head
    of [devices], [credentials] the slice written so far. *)
Fixpoint WebAuthnCredentials_loop (i : nat) (devices : list WebAuthnDevice.t)
  (credentials : list Credential.t) : list Credential.t :=
  match devices with
  | [] => credentials
  | device :: rest =>
      let '(aaguid, err) := NullUUID_MarshalBinary (WebAuthnDevice.AAGUID device) in
      match err with
      | Some _ => WebAuthnCredentials_loop (S i) rest credentials
      | None =>
          WebAuthnCredentials_loop (S i) rest
            (slice_set i (credentialOf device aaguid) credentials)
      end
  end.

Definition WebAuthnCredentials (w : WebAuthnUser.t) : list Credential.t :=
  let credentials := make Credential.zero (List.length (WebAuthnUser.Devices w)) in
  WebAuthnCredentials_loop 0 (WebAuthnUser.Devices w) credentials.

(** *** Constructor *)

(** The loop [transport[i] = string(t)] over [credential.Transport]. *)
Fixpoint transport_loop (i : nat) (ts : list protocol.AuthenticatorTransport)
  (transport : list string) : list string :=
  match ts with
  | [] => transport
  | t :: rest => transport_loop (S i) rest (slice_set i t transport)
  end.

(** [now] is the value of [time.Now()] at the call. *)
Definition NewWebAuthnDeviceFromCredential (now : time.Time)
  (rpid username description : string) (credential : Credential.t)
  : WebAuthnDevice.t :=
  let transport :=
    transport_loop 0 (Credential.Transport credential)
      (make "" (List.length (Credential.Transport credential))) in
  let device :=
    {| WebAuthnDevice.ID := 0%Z;
       WebAuthnDevice.CreatedAt := now;
       WebAuthnDevice.LastUsedAt := NullTime.zero;
       WebAuthnDevice.RPID := rpid;
       WebAuthnDevice.Username := username;
       WebAuthnDevice.Description := description;
       WebAuthnDevice.KID := NewBase64 (Credential.ID credential);
       WebAuthnDevice.PublicKey := Credential.PublicKey credential;
       WebAuthnDevice.AttestationType := Credential.AttestationType credential;
       WebAuthnDevice.Transport := strings.Join transport ",";
       WebAuthnDevice.AAGUID := NullUUID.zero;
       WebAuthnDevice.SignCount :=
         Authenticator.SignCount (Credential.Authenticator credential);
       WebAuthnDevice.CloneWarning :=
         Authenticator.CloneWarning (Credential.Authenticator credential) |} in
  let '(aaguid, err) :=
    uuid_Parse
      (hex.EncodeToString (Authenticator.AAGUID (Credential.Authenticator credential))) in
  match err with
  | None =>
      if negb (uuid_ID aaguid =? 0)%Z
      then WebAuthnDevice.set_AAGUID
             {| NullUUID.Valid := true; NullUUID.UUID := aaguid |} device
      else device
  | Some _ => device
  end.

(** *** Sign-in updater *)

Definition UpdateSignInInfo (d : WebAuthnDevice.t) (config : Config.t)
  (now : time.Time) (signCount : Z) : WebAuthnDevice.t :=
  let d := WebAuthnDevice.set_LastUsedAt
             {| NullTime.Time := now; NullTime.Valid := true |} d in
  let d := WebAuthnDevice.set_SignCount signCount d in
  if negb (String.eqb (WebAuthnDevice.RPID d) "") then d
  else if String.eqb (WebAuthnDevice.AttestationType d) attestationTypeFIDOU2F
       then WebAuthnDevice.set_RPID (Config.RPOrigin config) d
       else WebAuthnDevice.set_RPID (Config.RPID config) d.

(** *** Export codec *)

(** [LastUsed]: [None] is the nil pointer. *)
Definition LastUsed (d : WebAuthnDevice.t) : option time.Time :=
  if NullTime.Valid (WebAuthnDevice.LastUsedAt d)
  then Some (time.Unix
               (time.Time_Unix (NullTime.Time (WebAuthnDevice.LastUsedAt d)))
               (time.Time_Nanosecond (NullTime.Time (WebAuthnDevice.LastUsedAt d))))
  else None.

Definition ToData (d : WebAuthnDevice.t) : WebAuthnDeviceData.t :=
  {| WebAuthnDeviceData.CreatedAt := WebAuthnDevice.CreatedAt d;
     WebAuthnDeviceData.LastUsedAt := LastUsed d;
     WebAuthnDeviceData.RPID := WebAuthnDevice.RPID d;
     WebAuthnDeviceData.Username := WebAuthnDevice.Username d;
     WebAuthnDeviceData.Description := WebAuthnDevice.Description d;
     WebAuthnDeviceData.KID := Base64_String (WebAuthnDevice.KID d);
     WebAuthnDeviceData.PublicKey :=
       base64_EncodeToString (WebAuthnDevice.PublicKey d);
     WebAuthnDeviceData.AttestationType := WebAuthnDevice.AttestationType d;
     WebAuthnDeviceData.Transport := WebAuthnDevice.Transport d;
     WebAuthnDeviceData.AAGUID := uuid_String (NullUUID.UUID (WebAuthnDevice.AAGUID d));
     WebAuthnDeviceData.SignCount := WebAuthnDevice.SignCount d;
     WebAuthnDeviceData.CloneWarning := WebAuthnDevice.CloneWarning d |}.

Definition MarshalYAML (d : WebAuthnDevice.t) : WebAuthnDeviceData.t * option error :=
  (ToData d, None).

(** [UnmarshalYAML]: [d] is the receiver as it stands at the call; the result
    is the receiver as the call leaves it, and the returned error. *)
Definition UnmarshalYAML (d : WebAuthnDevice.t) (value : yaml.Node)
  : WebAuthnDevice.t * option error :=
  let '(o, err) := yaml.Decode value in
  match err with
  | Some e => (d, Some e)
  | None =>
  let '(publicKey, err) := base64_DecodeString (WebAuthnDeviceData.PublicKey o) in
  let d := WebAuthnDevice.set_PublicKey publicKey d in
  match err with
  | Some e => (d, Some e)
  | None =>
  let '(aaguid, err) := uuid_Parse (WebAuthnDeviceData.AAGUID o) in
  match err with
  | Some e => (d, Some e)
  | None =>
  let d :=
    if negb (uuid_ID aaguid =? 0)%Z
    then WebAuthnDevice.set_AAGUID
           {| NullUUID.Valid := true; NullUUID.UUID := aaguid |} d
    else d in
  let '(kid, err) := base64_DecodeString (WebAuthnDeviceData.KID o) in
  match err with
  | Some e => (d, Some e)
  | None =>
  let d := WebAuthnDevice.set_KID (NewBase64 kid) d in
  let d := WebAuthnDevice.set_CreatedAt (WebAuthnDeviceData.CreatedAt o) d in
  let d := WebAuthnDevice.set_RPID (WebAuthnDeviceData.RPID o) d in
  let d := WebAuthnDevice.set_Username (WebAuthnDeviceData.Username o) d in
  let d := WebAuthnDevice.set_Description (WebAuthnDeviceData.Description o) d in
  let d := WebAuthnDevice.set_AttestationType (WebAuthnDeviceData.AttestationType o) d in
  let d := WebAuthnDevice.set_Transport (WebAuthnDeviceData.Transport o) d in
  let d := WebAuthnDevice.set_SignCount (WebAuthnDeviceData.SignCount o) d in
  let d := WebAuthnDevice.set_CloneWarning (WebAuthnDeviceData.CloneWarning o) d in
  let d :=
    match WebAuthnDeviceData.LastUsedAt o with
    | Some t =>
        WebAuthnDevice.set_LastUsedAt
          {| NullTime.Valid := true; NullTime.Time := t |} d
    | None => d
    end in
  (d, None)
  end end end end.

(** *** Export container *)

(** The loop [data.WebAuthnDevices[i] = device.ToData()]. *)
Fixpoint WebAuthnDeviceExport_ToData_loop (i : nat)
  (devices : list WebAuthnDevice.t) (data : list WebAuthnDeviceData.t)
  : list WebAuthnDeviceData.t :=
  match devices with
  | [] => data
  | device :: rest =>
      WebAuthnDeviceExport_ToData_loop (S i) rest (slice_set i (ToData device) data)
  end.

(** [WebAuthnDeviceExport.ToData]. *)
Definition WebAuthnDeviceExport_ToData (export : WebAuthnDeviceExport.t)
  : WebAuthnDeviceDataExport.t :=
  let data :=
    make WebAuthnDeviceData.zero
      (List.length (WebAuthnDeviceExport.WebAuthnDevices export)) in
  {| WebAuthnDeviceDataExport.WebAuthnDevices :=
       WebAuthnDeviceExport_ToData_loop 0
         (WebAuthnDeviceExport.WebAuthnDevices export) data |}.

(** [WebAuthnDeviceExport.MarshalYAML]. *)
Definition WebAuthnDeviceExport_MarshalYAML (export : WebAuthnDeviceExport.t)
  : WebAuthnDeviceDataExport.t * option error :=
  (WebAuthnDeviceExport_ToData export, None).

(** Modelled from the spec: decoding of an export container.  The source has
    no decoder for the container: the structured-text engine walks the
    sequence and calls [UnmarshalYAML] once per element, each on a fresh
    Device.  The spec has the codec applied "to each element independently,
    preserving input order", and "a decode failure on any element aborts
    decoding of the entire container - no partial container is returned". *)
Fixpoint decodeDevices (nodes : list yaml.Node) : error + list WebAuthnDevice.t :=
  match nodes with
  | [] => inr []
  | value :: rest =>
      match UnmarshalYAML WebAuthnDevice.zero value with
      | (_, Some e) => inl e
      | (d, None) =>
          match decodeDevices rest with
          | inl e => inl e
          | inr ds => inr (d :: ds)
          end
      end
  end.

(** Modelled from the spec: the decoded container, around the devices of
    [decodeDevices]; on a failure there is the error and no container. *)
Definition WebAuthnDeviceExport_UnmarshalYAML (nodes : list yaml.Node)
  : error + WebAuthnDeviceExport.t :=
  match decodeDevices nodes with
  | inl e => inl e
  | inr ds => inr {| WebAuthnDeviceExport.WebAuthnDevices := ds |}
  end.

End Operations.

(** ** A reference instance of the external primitives

    Executable definitions of the primitives, after the documented behaviour
    of [encoding/base64] (RFC 4648, section 4, with padding) and of
    [github.com/google/uuid]; the code above runs on concrete inputs through
    [golibs]. *)

Module Reference.

Definition corrupt : error := "illegal base64 data".
Definition invalidFormat : error := "invalid UUID format".
Definition invalidLength : error := "invalid UUID length".
Definition invalidPrefix : error := "invalid urn prefix".

(** *** base64.StdEncoding *)

Definition encodeStd : list ascii :=
  list_ascii_of_string
    "ABCDEFGHIJKLMNOPQRSTUVWXYZabcdefghijklmnopqrstuvwxyz0123456789+/".

(** The character of a six-bit value. *)
Definition encode (z : Z) : ascii := nth (Z.to_nat (z mod 64)) encodeStd "A"%char.

Fixpoint indexOf (c : ascii) (l : list ascii) (i : Z) : option Z :=
  match l with
  | [] => None
  | x :: r => if Ascii.eqb x c then Some i else indexOf c r (i + 1)%Z
  end.

(** The six-bit value of a character; [None] where Go's table holds 0xff. *)
Definition decodeMap (c : ascii) : option Z := indexOf c encodeStd 0%Z.

Definition padChar : ascii := "="%char.

(** Three bytes give four characters; a last group of one or two bytes is
    padded. *)
Fixpoint EncodeToString (src : bytes) : string :=
  match src with
  | [] => EmptyString
  | [a] =>
      let val := (Z_of_byte a * 65536)%Z in
      String (encode (val / 262144)) (String (encode (val / 4096))
        (String padChar (String padChar EmptyString)))
  | [a; b] =>
      let val := (Z_of_byte a * 65536 + Z_of_byte b * 256)%Z in
      String (encode (val / 262144)) (String (encode (val / 4096))
        (String (encode (val / 64)) (String padChar EmptyString)))
  | a :: b :: c :: rest =>
      let val := (Z_of_byte a * 65536 + Z_of_byte b * 256 + Z_of_byte c)%Z in
      String (encode (val / 262144)) (String (encode (val / 4096))
        (String (encode (val / 64)) (String (encode val) (EncodeToString rest))))
  end.

(** Line breaks are skipped wherever they stand. *)
Definition isNewline (c : ascii) : bool :=
  Ascii.eqb c "010"%char || Ascii.eqb c "013"%char.

(** What follows the padding must be nothing. *)
Definition trailing (rest : list ascii) : option error :=
  match rest with
  | [] => None
  | _ :: _ => Some corrupt
  end.

(** The quanta of four characters, in order.  The bytes decoded before an
    error are returned with it, as Go's [dbuf[:n]] is. *)
Fixpoint decodeQuanta (src : list ascii) : bytes * option error :=
  match src with
  | [] => ([], None)
  | c0 :: c1 :: c2 :: c3 :: rest =>
      match decodeMap c0, decodeMap c1 with
      | Some s0, Some s1 =>
          match decodeMap c2, decodeMap c3 with
          | Some s2, Some s3 =>
              let val := (s0 * 262144 + s1 * 4096 + s2 * 64 + s3)%Z in
              let '(out, err) := decodeQuanta rest in
              (byte_of_Z (val / 65536) :: byte_of_Z (val / 256) :: byte_of_Z val :: out,
               err)
          | Some s2, None =>
              let val := (s0 * 262144 + s1 * 4096 + s2 * 64)%Z in
              if Ascii.eqb c3 padChar
              then ([byte_of_Z (val / 65536); byte_of_Z (val / 256)], trailing rest)
              else ([], Some corrupt)
          | None, _ =>
              let val := (s0 * 262144 + s1 * 4096)%Z in
              if Ascii.eqb c2 padChar && Ascii.eqb c3 padChar
              then ([byte_of_Z (val / 65536)], trailing rest)
              else ([], Some corrupt)
          end
      | _, _ => ([], Some corrupt)
      end
  | _ => ([], Some corrupt)
  end.

Definition DecodeString (s : string) : bytes * option error :=
  decodeQuanta (filter (fun c => negb (isNewline c)) (list_ascii_of_string s)).

(** *** uuid *)

(** The value of a hexadecimal digit of either case. *)
Definition xvalue (c : ascii) : option Z :=
  let n := Z.of_nat (nat_of_ascii c) in
  if ((48 <=? n) && (n <=? 57))%Z then Some (n - 48)%Z
  else if ((97 <=? n) && (n <=? 102))%Z then Some (n - 87)%Z
  else if ((65 <=? n) && (n <=? 70))%Z then Some (n - 55)%Z
  else None.

Definition xtob (x1 x2 : ascii) : option byte :=
  match xvalue x1, xvalue x2 with
  | Some h, Some l => Some (byte_of_Z (h * 16 + l))
  | _, _ => None
  end.

Fixpoint hexPairs (l : list ascii) : option bytes :=
  match l with
  | [] => Some []
  | x1 :: x2 :: rest =>
      match xtob x1 x2, hexPairs rest with
      | Some b, Some bs => Some (b :: bs)
      | _, _ => None
      end
  | _ => None
  end.

Definition ofHex (digits : list ascii) : uuid.UUID * option error :=
  match hexPairs digits with
  | Some bs =>
      match uuid.of_bytes bs with
      | Some u => (u, None)
      | None => (uuid.Nil, Some invalidFormat)
      end
  | None => (uuid.Nil, Some invalidFormat)
  end.

Definition isDash (l : list ascii) (i : nat) : bool :=
  Ascii.eqb (nth i l "000"%char) "-"%char.

(** The form xxxxxxxx-xxxx-xxxx-xxxx-xxxxxxxxxxxx, read from the first 36
    characters of [l]. *)
Definition parseCanonical (l : list ascii) : uuid.UUID * option error :=
  if isDash l 8 && isDash l 13 && isDash l 18 && isDash l 23
  then ofHex (firstn 8 l ++ firstn 4 (skipn 9 l) ++ firstn 4 (skipn 14 l)
              ++ firstn 4 (skipn 19 l) ++ firstn 12 (skipn 24 l))
  else (uuid.Nil, Some invalidFormat).

Definition lower (c : ascii) : ascii :=
  let n := nat_of_ascii c in
  if (65 <=? n)%nat && (n <=? 90)%nat then ascii_of_nat (n + 32) else c.

Definition EqualFold (l : list ascii) (s : string) : bool :=
  String.eqb (string_of_list_ascii (map lower l))
             (string_of_list_ascii (map lower (list_ascii_of_string s))).

(** [uuid.Parse]: the canonical form, the same after [urn:uuid:] or between
    two enclosing characters, and 32 bare digits.  On an error the result's
    first component is left at [uuid.Nil]; the code never reads it. *)
Definition Parse (s : string) : uuid.UUID * option error :=
  let l := list_ascii_of_string s in
  let n := List.length l in
  if (n =? 36)%nat then parseCanonical l
  else if (n =? 45)%nat then
    if EqualFold (firstn 9 l) "urn:uuid:" then parseCanonical (skipn 9 l)
    else (uuid.Nil, Some invalidPrefix)
  else if (n =? 38)%nat then parseCanonical (skipn 1 l)
  else if (n =? 32)%nat then ofHex l
  else (uuid.Nil, Some invalidLength).

(** [UUID.String]: the canonical lower-case form. *)
Definition String_ (u : uuid.UUID) : string :=
  String.append (hex.EncodeToString [uuid.b0 u; uuid.b1 u; uuid.b2 u; uuid.b3 u])
    (String "-" (String.append (hex.EncodeToString [uuid.b4 u; uuid.b5 u])
    (String "-" (String.append (hex.EncodeToString [uuid.b6 u; uuid.b7 u])
    (String "-" (String.append (hex.EncodeToString [uuid.b8 u; uuid.b9 u])
    (String "-" (hex.EncodeToString
                   [uuid.b10 u; uuid.b11 u; uuid.b12 u; uuid.b13 u;
                    uuid.b14 u; uuid.b15 u])))))))).

(** [UUID.ID], "the id for a Version 2 UUID": the library returns
    [binary.BigEndian.Uint32(uuid[0:4])], the first four bytes read as one
    big-endian number. *)
Definition ID (u : uuid.UUID) : Z :=
  (((Z_of_byte (uuid.b0 u) * 256 + Z_of_byte (uuid.b1 u)) * 256
    + Z_of_byte (uuid.b2 u)) * 256 + Z_of_byte (uuid.b3 u))%Z.

(** [NullUUID.MarshalBinary]: the sixteen bytes of a valid value, no bytes of
    an invalid one, and no error either way. *)
Definition MarshalBinary (nu : NullUUID.t) : bytes * option error :=
  if NullUUID.Valid nu then (uuid.to_bytes (NullUUID.UUID nu), None)
  else ([], None).

Definition golibs : Externals :=
  {| base64_EncodeToString := EncodeToString;
     base64_DecodeString := DecodeString;
     uuid_Parse := Parse;
     uuid_String := String_;
     uuid_ID := ID;
     NullUUID_MarshalBinary := MarshalBinary |}.

End Reference.

(** ** Notions used by the statements *)

(** Equality tests on the library values. *)
Definition UUID_eqb (u v : uuid.UUID) : bool :=
  forallb (fun p : byte * byte => Byte.eqb (fst p) (snd p))
          (combine (uuid.to_bytes u) (uuid.to_bytes v)).

Definition Time_eqb (s t : time.Time) : bool :=
  (time.sec s =? time.sec t)%Z && (time.nsec s =? time.nsec t)%Z.

(** The aaguid is in one of its two stored states: valid with an identifier
    that [uuid_ID] does not read as zero, or not valid with all bytes zero. *)
Definition aaguidStored {E : Externals} (d : WebAuthnDevice.t) : bool :=
  if NullUUID.Valid (WebAuthnDevice.AAGUID d)
  then negb (uuid_ID (NullUUID.UUID (WebAuthnDevice.AAGUID d)) =? 0)%Z
  else UUID_eqb (NullUUID.UUID (WebAuthnDevice.AAGUID d)) uuid.Nil.

(** The last use is in one of its two stored states: valid with a time whose
    nanoseconds lie within the second (as those of every [time.Time] do), or
    not valid with the zero time. *)
Definition lastUsedStored (d : WebAuthnDevice.t) : bool :=
  let t := NullTime.Time (WebAuthnDevice.LastUsedAt d) in
  if NullTime.Valid (WebAuthnDevice.LastUsedAt d)
  then ((0 <=? time.nsec t) && (time.nsec t <? 1000000000))%Z
  else Time_eqb t time.zero.

(** A valid Device, as far as the export codec is concerned. *)
Definition validDevice {E : Externals} (d : WebAuthnDevice.t) : bool :=
  aaguidStored d && lastUsedStored d.

(** A run of sign-ins: the arguments of the successive calls of
    [UpdateSignInInfo] on one device. *)
Definition SignIn : Type := (Config.t * time.Time * Z)%type.

Definition signIn (d : WebAuthnDevice.t) (c : SignIn) : WebAuthnDevice.t :=
  let '(config, now, signCount) := c in UpdateSignInInfo d config now signCount.

Definition signIns (d : WebAuthnDevice.t) (calls : list SignIn) : WebAuthnDevice.t :=
  fold_left signIn calls d.

(** The number of calls of the run that change rpid. *)
Fixpoint rpidChanges (d : WebAuthnDevice.t) (calls : list SignIn) : nat :=
  match calls with
  | [] => O
  | c :: rest =>
      (if String.eqb (WebAuthnDevice.RPID (signIn d c)) (WebAuthnDevice.RPID d)
       then O else 1%nat)
      + rpidChanges (signIn d c) rest
  end.

(** The slot of a device in the result of [WebAuthnCredentials]. *)
Definition credentialSlot {E : Externals} (device : WebAuthnDevice.t) : Credential.t :=
  match NullUUID_MarshalBinary (WebAuthnDevice.AAGUID device) with
  | (aaguid, None) => credentialOf device aaguid
  | (_, Some _) => Credential.zero
  end.

(** A token of a stored transport string: not empty, and free of the
    delimiter. *)
Fixpoint hasComma (s : string) : bool :=
  match s with
  | EmptyString => false
  | String c r => Ascii.eqb c ","%char || hasComma r
  end.

Definition nonEmpty (t : string) : bool := negb (String.eqb t "").

Definition isToken (s : string) : bool :=
  negb (String.eqb s "") && negb (hasComma s).

(** A text the external decoders refuse. *)
Definition invalidBase64 {E : Externals} (s : string) : Prop :=
  snd (base64_DecodeString s) <> None.

Definition invalidUUID {E : Externals} (s : string) : Prop :=
  snd (uuid_Parse s) <> None.

(** An element of a container that decodes, on a fresh Device. *)
Definition decodes {E : Externals} (value : yaml.Node) : Prop :=
  snd (UnmarshalYAML WebAuthnDevice.zero value) = None.

(** The fields of the receiver that a failing decode leaves as they were. *)
Definition sameButKeyAndAaguid (d d' : WebAuthnDevice.t) : Prop :=
  WebAuthnDevice.ID d' = WebAuthnDevice.ID d
  /\ WebAuthnDevice.CreatedAt d' = WebAuthnDevice.CreatedAt d
  /\ WebAuthnDevice.LastUsedAt d' = WebAuthnDevice.LastUsedAt d
  /\ WebAuthnDevice.RPID d' = WebAuthnDevice.RPID d
  /\ WebAuthnDevice.Username d' = WebAuthnDevice.Username d
  /\ WebAuthnDevice.Description d' = WebAuthnDevice.Description d
  /\ WebAuthnDevice.KID d' = WebAuthnDevice.KID d
  /\ WebAuthnDevice.AttestationType d' = WebAuthnDevice.AttestationType d
  /\ WebAuthnDevice.Transport d' = WebAuthnDevice.Transport d
  /\ WebAuthnDevice.SignCount d' = WebAuthnDevice.SignCount d
  /\ WebAuthnDevice.CloneWarning d' = WebAuthnDevice.CloneWarning d.

(** ** Sample values

    Concrete devices, configurations and texts on which the statements below
    are run. *)

Module Sample.

Definition registered : time.Time :=
  {| time.sec := 1700000000%Z; time.nsec := 120000000%Z |}.

Definition now : time.Time :=
  {| time.sec := 1700003600%Z; time.nsec := 5000%Z |}.

Definition later : time.Time :=
  {| time.sec := 1700007200%Z; time.nsec := 0%Z |}.

(** f8a011f3-8c0a-4d15-8006-17111f9edc7d *)
Definition aaguid : uuid.UUID :=
  uuid.mkUUID xf8 xa0 x11 xf3 x8c x0a x4d x15 x80 x06 x17 x11 x1f x9e xdc x7d.

(** 00000000-0000-0000-0000-000000000001 *)
Definition aaguidLowOnly : uuid.UUID :=
  uuid.mkUUID x00 x00 x00 x00 x00 x00 x00 x00 x00 x00 x00 x00 x00 x00 x00 x01.

Definition config : Config.t :=
  {| Config.RPID := "login.example.com";
     Config.RPOrigin := "https://login.example.com" |}.

Definition otherConfig : Config.t :=
  {| Config.RPID := "auth.example.org";
     Config.RPOrigin := "https://auth.example.org" |}.

(** A security key of user john, used once. *)
Definition key : WebAuthnDevice.t :=
  {| WebAuthnDevice.ID := 7%Z;
     WebAuthnDevice.CreatedAt := registered;
     WebAuthnDevice.LastUsedAt :=
       {| NullTime.Time := now; NullTime.Valid := true |};
     WebAuthnDevice.RPID := "login.example.com";
     WebAuthnDevice.Username := "john";
     WebAuthnDevice.Description := "Primary";
     WebAuthnDevice.KID := NewBase64 [x01; x02; x03; x04; x05];
     WebAuthnDevice.PublicKey := [xa5; x01; x02; x03; x26];
     WebAuthnDevice.AttestationType := "packed";
     WebAuthnDevice.Transport := "usb,nfc";
     WebAuthnDevice.AAGUID := {| NullUUID.UUID := aaguid; NullUUID.Valid := true |};
     WebAuthnDevice.SignCount := 12%Z;
     WebAuthnDevice.CloneWarning := false |}.

(** A migrated U2F device: no rpid yet, no aaguid, no transport, never used. *)
Definition legacy : WebAuthnDevice.t :=
  {| WebAuthnDevice.ID := 8%Z;
     WebAuthnDevice.CreatedAt := registered;
     WebAuthnDevice.LastUsedAt := NullTime.zero;
     WebAuthnDevice.RPID := "";
     WebAuthnDevice.Username := "john";
     WebAuthnDevice.Description := "Old key";
     WebAuthnDevice.KID := NewBase64 [x0a; x0b];
     WebAuthnDevice.PublicKey := [x04; x11; x22];
     WebAuthnDevice.AttestationType := "fido-u2f";
     WebAuthnDevice.Transport := "";
     WebAuthnDevice.AAGUID := NullUUID.zero;
     WebAuthnDevice.SignCount := 0%Z;
     WebAuthnDevice.CloneWarning := false |}.

(** A platform authenticator. *)
Definition laptop : WebAuthnDevice.t :=
  {| WebAuthnDevice.ID := 9%Z;
     WebAuthnDevice.CreatedAt := registered;
     WebAuthnDevice.LastUsedAt := NullTime.zero;
     WebAuthnDevice.RPID := "login.example.com";
     WebAuthnDevice.Username := "john";
     WebAuthnDevice.Description := "Laptop";
     WebAuthnDevice.KID := NewBase64 [x21; x22; x23];
     WebAuthnDevice.PublicKey := [xa5; x09];
     WebAuthnDevice.AttestationType := "none";
     WebAuthnDevice.Transport := "internal";
     WebAuthnDevice.AAGUID := {| NullUUID.UUID := aaguid; NullUUID.Valid := true |};
     WebAuthnDevice.SignCount := 3%Z;
     WebAuthnDevice.CloneWarning := true |}.

(** The credential of a registration whose authenticator reports the aaguid
    00000000-0000-0000-0000-000000000001. *)
Definition registration : Credential.t :=
  {| Credential.ID := [x31; x32; x33];
     Credential.PublicKey := [xa5; x01; x02];
     Credential.AttestationType := "packed";
     Credential.Transport := ["usb"; "nfc"];
     Credential.Authenticator :=
       {| Authenticator.AAGUID := uuid.to_bytes aaguidLowOnly;
          Authenticator.SignCount := 1%Z;
          Authenticator.CloneWarning := false |} |}.

(** The export shape of a device, with text fields to be filled in. *)
Definition record (kid publicKey aaguid : string) : WebAuthnDeviceData.t :=
  {| WebAuthnDeviceData.CreatedAt := registered;
     WebAuthnDeviceData.LastUsedAt := None;
     WebAuthnDeviceData.RPID := "login.example.com";
     WebAuthnDeviceData.Username := "john";
     WebAuthnDeviceData.Description := "Restored";
     WebAuthnDeviceData.KID := kid;
     WebAuthnDeviceData.PublicKey := publicKey;
     WebAuthnDeviceData.AttestationType := "packed";
     WebAuthnDeviceData.Transport := "usb";
     WebAuthnDeviceData.AAGUID := aaguid;
     WebAuthnDeviceData.SignCount := 4%Z;
     WebAuthnDeviceData.CloneWarning := false |}.

Definition nilText : string := "00000000-0000-0000-0000-000000000000".

Definition john : WebAuthnUser.t :=
  {| WebAuthnUser.Username := "john";
     WebAuthnUser.DisplayName := "John Doe";
     WebAuthnUser.Devices := [key; legacy; laptop] |}.

End Sample.

(** ** The descriptor list

    [credential.Descriptor()] belongs to the ceremony engine: the descriptor
    type, its zero value and the method are parameters of the embedding. *)

Section Descriptors.

Context {E : Externals}.

Variable CredentialDescriptor : Type.
Variable CredentialDescriptor_zero : CredentialDescriptor.
Variable Descriptor : Credential.t -> CredentialDescriptor.

(** The loop [descriptors[i] = credential.Descriptor()]. *)
Fixpoint WebAuthnCredentialDescriptors_loop (i : nat) (credentials : list Credential.t)
  (descriptors : list CredentialDescriptor) : list CredentialDescriptor :=
  match credentials with
  | [] => descriptors
  | credential :: rest =>
      WebAuthnCredentialDescriptors_loop (S i) rest
        (slice_set i (Descriptor credential) descriptors)
  end.

Definition WebAuthnCredentialDescriptors (w : WebAuthnUser.t)
  : list CredentialDescriptor :=
  let credentials := WebAuthnCredentials w in
  let descriptors := make CredentialDescriptor_zero (List.length credentials) in
  WebAuthnCredentialDescriptors_loop 0 credentials descriptors.

End Descriptors.

(** ** Notions used by the further properties *)

(** The marshaller reports no error on any of the devices. *)
Definition marshals {E : Externals} (devices : list WebAuthnDevice.t) : Prop :=
  Forall
    (fun device =>
       snd (NullUUID_MarshalBinary (WebAuthnDevice.AAGUID device)) = None)
    devices.


(** The credential of a device under a marshaller that reports no error. *)
Definition translated {E : Externals} (device : WebAuthnDevice.t) : Credential.t :=
  credentialOf device (fst (NullUUID_MarshalBinary (WebAuthnDevice.AAGUID device))).

(** The fields of a device that no sign-in writes. *)
Definition sameButSignIn (d d' : WebAuthnDevice.t) : Prop :=
  WebAuthnDevice.ID d' = WebAuthnDevice.ID d
  /\ WebAuthnDevice.CreatedAt d' = WebAuthnDevice.CreatedAt d
  /\ WebAuthnDevice.Username d' = WebAuthnDevice.Username d
  /\ WebAuthnDevice.Description d' = WebAuthnDevice.Description d
  /\ WebAuthnDevice.KID d' = WebAuthnDevice.KID d
  /\ WebAuthnDevice.PublicKey d' = WebAuthnDevice.PublicKey d
  /\ WebAuthnDevice.AttestationType d' = WebAuthnDevice.AttestationType d
  /\ WebAuthnDevice.Transport d' = WebAuthnDevice.Transport d
  /\ WebAuthnDevice.AAGUID d' = WebAuthnDevice.AAGUID d
  /\ WebAuthnDevice.CloneWarning d' = WebAuthnDevice.CloneWarning d.

(** The nanoseconds of a time lie within the second. *)
Definition withinSecond (t : time.Time) : bool :=
  ((0 <=? time.nsec t) && (time.nsec t <? 1000000000))%Z.

(** The user of a device list. *)
Definition userOf (username displayName : string) (devices : list WebAuthnDevice.t)
  : WebAuthnUser.t :=
  {| WebAuthnUser.Username := username;
     WebAuthnUser.DisplayName := displayName;
     WebAuthnUser.Devices := devices |}.

(** * Properties *)

(** ** Slices *)

Lemma slice_set_length {A : Type} (i : nat) (v : A) (a : list A) :
  List.length (slice_set i v a) = List.length a.
Proof.
  revert i; induction a as [|h t IH]; intros [|j]; simpl; auto.
Qed.

Lemma slice_set_app {A : Type} (pre : list A) (v x : A) (post : list A) :
  slice_set (List.length pre) v (pre ++ x :: post) = pre ++ v :: post.
Proof.
  induction pre as [|h t IH]; simpl; [reflexivity|].
  now rewrite IH.
Qed.

Lemma snoc_length {A : Type} (pre : list A) (x : A) :
  List.length (pre ++ [x]) = S (List.length pre).
Proof.
  rewrite length_app; simpl; lia.
Qed.

Lemma snoc_app {A : Type} (pre : list A) (x : A) (post : list A) :
  pre ++ x :: post = (pre ++ [x]) ++ post.
Proof.
  now rewrite <- app_assoc.
Qed.

(** Moves the slot just written from the unwritten part to the written one. *)
Ltac next_slot pre x :=
  rewrite (snoc_app pre x), <- (snoc_length pre x).

Section Loops.

Context {E : Externals}.

(** The credential loop fills the slots from left to right: the slot of a
    device whose aaguid marshals holds its credential, the slot of any other
    device is left at the zero credential. *)
Lemma WebAuthnCredentials_loop_slots (devices : list WebAuthnDevice.t) :
  forall pre : list Credential.t,
    WebAuthnCredentials_loop (List.length pre) devices
      (pre ++ make Credential.zero (List.length devices))
    = pre ++ map credentialSlot devices.
Proof.
  induction devices as [|device rest IH]; intros pre; simpl.
  - reflexivity.
  - unfold credentialSlot at 1.
    destruct (NullUUID_MarshalBinary (WebAuthnDevice.AAGUID device)) as [aaguid [e|]].
    + next_slot pre Credential.zero.
      rewrite IH, <- app_assoc. reflexivity.
    + rewrite slice_set_app.
      next_slot pre (credentialOf device aaguid).
      rewrite (IH (pre ++ [credentialOf device aaguid])), <- app_assoc. reflexivity.
Qed.

Lemma WebAuthnCredentials_slots (w : WebAuthnUser.t) :
  WebAuthnCredentials w = map credentialSlot (WebAuthnUser.Devices w).
Proof.
  unfold WebAuthnCredentials.
  exact (WebAuthnCredentials_loop_slots (WebAuthnUser.Devices w) []).
Qed.

Lemma WebAuthnDeviceExport_ToData_loop_map (devices : list WebAuthnDevice.t) :
  forall pre : list WebAuthnDeviceData.t,
    WebAuthnDeviceExport_ToData_loop (List.length pre) devices
      (pre ++ make WebAuthnDeviceData.zero (List.length devices))
    = pre ++ map ToData devices.
Proof.
  induction devices as [|device rest IH]; intros pre; simpl.
  - reflexivity.
  - rewrite slice_set_app.
    next_slot pre (ToData device).
    rewrite (IH (pre ++ [ToData device])), <- app_assoc. reflexivity.
Qed.

Lemma WebAuthnDeviceExport_ToData_map (export : WebAuthnDeviceExport.t) :
  WebAuthnDeviceDataExport.WebAuthnDevices (WebAuthnDeviceExport_ToData export)
  = map ToData (WebAuthnDeviceExport.WebAuthnDevices export).
Proof.
  unfold WebAuthnDeviceExport_ToData; simpl.
  exact (WebAuthnDeviceExport_ToData_loop_map
           (WebAuthnDeviceExport.WebAuthnDevices export) []).
Qed.

End Loops.

Lemma transport_loop_copy (ts : list string) :
  forall pre : list string,
    transport_loop (List.length pre) ts (pre ++ make "" (List.length ts)) = pre ++ ts.
Proof.
  induction ts as [|t rest IH]; intros pre; simpl.
  - reflexivity.
  - rewrite slice_set_app.
    next_slot pre t.
    rewrite (IH (pre ++ [t])), <- app_assoc. reflexivity.
Qed.

(** ** Splitting and joining *)

Section StringsFacts.

Variable sep : ascii.

Lemma IndexByte_None (s : string) :
  strings.Count s sep = O -> strings.IndexByte s sep = None.
Proof.
  induction s as [|x r IH]; simpl; [reflexivity|].
  destruct (Ascii.eqb x sep); [discriminate|].
  intros H; now rewrite IH.
Qed.

(** A first separator at [m] cuts the string in two; the part before it holds
    no separator, the part after it one less than the whole. *)
Lemma IndexByte_Some (s : string) :
  forall m : nat,
    strings.IndexByte s sep = Some m ->
    s = String.append (strings.take m s) (String sep (strings.drop (S m) s))
    /\ strings.Count (strings.take m s) sep = O
    /\ strings.Count s sep = S (strings.Count (strings.drop (S m) s) sep).
Proof.
  induction s as [|x r IH]; simpl; intros m H; [discriminate|].
  destruct (Ascii.eqb x sep) eqn:Hx.
  - injection H as <-. apply Ascii.eqb_eq in Hx; subst x.
    simpl. destruct r; auto.
  - destruct (strings.IndexByte r sep) as [k|]; [|discriminate].
    injection H as <-.
    destruct (IH k eq_refl) as (H1 & H2 & H3).
    simpl. rewrite Hx. repeat split; auto.
    now rewrite <- H1.
Qed.

Lemma IndexByte_positive (s : string) (k : nat) :
  strings.Count s sep = S k -> exists m, strings.IndexByte s sep = Some m.
Proof.
  induction s as [|x r IH]; simpl; [discriminate|].
  destruct (Ascii.eqb x sep); [eauto|].
  intros H; destruct (IH H) as [m ->]; eauto.
Qed.

Lemma Join_cons (e h : string) (t : list string) (glue : string) :
  strings.Join (e :: h :: t) glue
  = String.append e (String.append glue (strings.Join (h :: t) glue)).
Proof.
  reflexivity.
Qed.

Lemma genSplit_nonempty (n : nat) (s : string) :
  exists h t, strings.genSplit n s sep = h :: t.
Proof.
  destruct n as [|k]; simpl; [eauto|].
  destruct (strings.IndexByte s sep); eauto.
Qed.

(** Joining the pieces with the separator gives the string back, however few
    cuts were made. *)
Lemma Join_genSplit (n : nat) :
  forall s : string,
    strings.Join (strings.genSplit n s sep) (String sep EmptyString) = s.
Proof.
  induction n as [|k IH]; intros s; simpl; [reflexivity|].
  destruct (strings.IndexByte s sep) as [m|] eqn:Hm; [|reflexivity].
  destruct (IndexByte_Some s m Hm) as (Hs & _ & _).
  destruct (genSplit_nonempty k (strings.drop (S m) s)) as (h & t & Hg).
  specialize (IH (strings.drop (S m) s)).
  rewrite Hg in *. rewrite Join_cons, IH.
  simpl. now rewrite <- Hs.
Qed.

(** With as many cuts as there are separators, no piece holds one. *)
Lemma genSplit_separator_free (n : nat) :
  forall s : string,
    strings.Count s sep = n ->
    Forall (fun t => strings.Count t sep = O) (strings.genSplit n s sep).
Proof.
  induction n as [|k IH]; intros s Hc; simpl.
  - constructor; [assumption | constructor].
  - destruct (IndexByte_positive s k Hc) as [m Hm]. rewrite Hm.
    destruct (IndexByte_Some s m Hm) as (_ & Hfree & Hcount).
    constructor; [assumption|].
    apply IH. rewrite Hc in Hcount. now injection Hcount.
Qed.

Lemma Count_append (s t : string) :
  strings.Count (String.append s t) sep = (strings.Count s sep + strings.Count t sep)%nat.
Proof.
  induction s as [|x r IH]; simpl; [reflexivity|].
  destruct (Ascii.eqb x sep); simpl; now rewrite IH.
Qed.

(** A separator-free piece followed by a separator is cut off whole. *)
Lemma IndexByte_piece (e rest : string) :
  strings.Count e sep = O ->
  strings.IndexByte (String.append e (String sep rest)) sep = Some (String.length e)
  /\ strings.take (String.length e) (String.append e (String sep rest)) = e
  /\ strings.drop (S (String.length e)) (String.append e (String sep rest)) = rest.
Proof.
  induction e as [|x r IH]; simpl; intros H.
  - rewrite Ascii.eqb_refl. repeat split. now destruct rest.
  - destruct (Ascii.eqb x sep); [discriminate|].
    destruct (IH H) as (H1 & H2 & H3).
    rewrite H1, H2. repeat split. exact H3.
Qed.

(** Splitting a join of separator-free pieces gives the pieces back. *)
Lemma Split_Join (e : string) (rest : list string) :
  Forall (fun t => strings.Count t sep = O) (e :: rest) ->
  strings.Split (strings.Join (e :: rest) (String sep EmptyString)) sep = e :: rest.
Proof.
  revert e; induction rest as [|e' rest IH]; intros e Hall; unfold strings.Split.
  - inversion Hall as [|? ? He _]; subst. simpl. now rewrite He.
  - inversion Hall as [|? ? He Hrest]; subst.
    rewrite Join_cons.
    change (String.append (String sep EmptyString) ?x) with (String sep x).
    rewrite Count_append. simpl strings.Count at 2. rewrite Ascii.eqb_refl, He.
    cbn [Nat.add strings.genSplit].
    destruct (IndexByte_piece e (strings.Join (e' :: rest) (String sep EmptyString)) He)
      as (H1 & H2 & H3).
    rewrite H1, H2, H3.
    f_equal. exact (IH e' Hrest).
Qed.

End StringsFacts.

Lemma hasComma_Count (s : string) :
  hasComma s = false <-> strings.Count s ","%char = O.
Proof.
  induction s as [|x r IH]; simpl; [tauto|].
  destruct (Ascii.eqb x ","%char); simpl; [split; discriminate | exact IH].
Qed.

Lemma isToken_spec (s : string) :
  isToken s = true -> s <> "" /\ strings.Count s ","%char = O.
Proof.
  unfold isToken. rewrite andb_true_iff, !negb_true_iff.
  intros [H1 H2]. split.
  - now apply String.eqb_neq.
  - now apply hasComma_Count.
Qed.

(** ** The transport tokens of a credential *)

Lemma appendTransports_filter (transports : list string) :
  forall credential : Credential.t,
    appendTransports transports credential
    = Credential.set_Transport
        (Credential.Transport credential ++ filter nonEmpty transports) credential.
Proof.
  unfold appendTransports.
  induction transports as [|t rest IH]; intros credential; simpl.
  - rewrite app_nil_r. now destruct credential.
  - rewrite IH. unfold nonEmpty at 2.
    destruct (String.eqb t ""); simpl; [reflexivity|].
    now rewrite <- app_assoc.
Qed.

Lemma credentialOf_Transport (device : WebAuthnDevice.t) (aaguid : bytes) :
  Credential.Transport (credentialOf device aaguid)
  = filter nonEmpty (strings.Split (WebAuthnDevice.Transport device) ","%char).
Proof.
  unfold credentialOf. now rewrite appendTransports_filter.
Qed.

Lemma filter_nonEmpty_tokens (ts : list string) :
  forallb isToken ts = true -> filter nonEmpty ts = ts.
Proof.
  induction ts as [|t rest IH]; simpl; [reflexivity|].
  rewrite andb_true_iff. intros [Ht Hrest].
  destruct (isToken_spec t Ht) as [Hne _].
  unfold nonEmpty at 1. apply String.eqb_neq in Hne. rewrite Hne. simpl.
  now rewrite IH.
Qed.

Lemma tokens_separator_free (ts : list string) :
  forallb isToken ts = true -> Forall (fun t => strings.Count t ","%char = O) ts.
Proof.
  induction ts as [|t rest IH]; simpl; [constructor|].
  rewrite andb_true_iff. intros [Ht Hrest].
  constructor; [apply (isToken_spec t Ht) | now apply IH].
Qed.

(** The stored form of a list of tokens translates back to the tokens. *)
Lemma transports_of_Join (ts : list string) :
  forallb isToken ts = true ->
  filter nonEmpty (strings.Split (strings.Join ts ",") ","%char) = ts.
Proof.
  intros Hts. destruct ts as [|e rest]; [reflexivity|].
  rewrite (Split_Join ","%char e rest (tokens_separator_free _ Hts)).
  now apply filter_nonEmpty_tokens.
Qed.

(** ** The sign-in updater *)

Lemma UpdateSignInInfo_RPID (d : WebAuthnDevice.t) (config : Config.t)
  (now : time.Time) (signCount : Z) :
  WebAuthnDevice.RPID (UpdateSignInInfo d config now signCount)
  = if String.eqb (WebAuthnDevice.RPID d) ""
    then if String.eqb (WebAuthnDevice.AttestationType d) attestationTypeFIDOU2F
         then Config.RPOrigin config
         else Config.RPID config
    else WebAuthnDevice.RPID d.
Proof.
  unfold UpdateSignInInfo; simpl.
  destruct (String.eqb (WebAuthnDevice.RPID d) ""); simpl; [|reflexivity].
  now destruct (String.eqb (WebAuthnDevice.AttestationType d) attestationTypeFIDOU2F).
Qed.

Lemma signIn_frozen (d : WebAuthnDevice.t) (c : SignIn) :
  WebAuthnDevice.RPID d <> "" ->
  WebAuthnDevice.RPID (signIn d c) = WebAuthnDevice.RPID d.
Proof.
  intros H. destruct c as [[config now] signCount]. unfold signIn.
  rewrite UpdateSignInInfo_RPID.
  apply String.eqb_neq in H. now rewrite H.
Qed.

Lemma signIns_frozen (calls : list SignIn) :
  forall d : WebAuthnDevice.t,
    WebAuthnDevice.RPID d <> "" ->
    WebAuthnDevice.RPID (signIns d calls) = WebAuthnDevice.RPID d.
Proof.
  unfold signIns.
  induction calls as [|c rest IH]; intros d H; simpl; [reflexivity|].
  rewrite IH; rewrite (signIn_frozen d c H); auto.
Qed.

Lemma rpidChanges_frozen (calls : list SignIn) :
  forall d : WebAuthnDevice.t,
    WebAuthnDevice.RPID d <> "" -> rpidChanges d calls = O.
Proof.
  induction calls as [|c rest IH]; intros d H; simpl; [reflexivity|].
  rewrite (signIn_frozen d c H), String.eqb_refl.
  apply IH. now rewrite (signIn_frozen d c H).
Qed.

Lemma rpidChanges_once (calls : list SignIn) :
  forall d : WebAuthnDevice.t, rpidChanges d calls <= 1.
Proof.
  induction calls as [|c rest IH]; intros d; simpl; [lia|].
  destruct (String.eqb (WebAuthnDevice.RPID (signIn d c)) (WebAuthnDevice.RPID d)) eqn:Hc.
  - apply IH.
  - rewrite rpidChanges_frozen; [lia|].
    intros Hempty. apply String.eqb_neq in Hc. apply Hc.
    destruct (string_dec (WebAuthnDevice.RPID d) "") as [Hd|Hd].
    + congruence.
    + now apply signIn_frozen.
Qed.

(** ** The reference primitives

    The reference base64 and UUID texts read back what they write. *)

Lemma Z_of_byte_range (b : byte) : (0 <= Z_of_byte b < 256)%Z.
Proof.
  unfold Z_of_byte. pose proof (Byte.to_N_bounded b). lia.
Qed.

Lemma byte_of_Z_of_byte (z : Z) (b : byte) :
  (z mod 256 = Z_of_byte b)%Z -> byte_of_Z z = b.
Proof.
  unfold byte_of_Z, Z_of_byte. intros ->.
  now rewrite N2Z.id, Byte.of_to_N.
Qed.

Lemma list_ind3 {A : Type} (P : list A -> Prop) :
  P [] -> (forall a, P [a]) -> (forall a b, P [a; b]) ->
  (forall a b c rest, P rest -> P (a :: b :: c :: rest)) ->
  forall l, P l.
Proof.
  intros H0 H1 H2 H3 l.
  enough (P l /\ (forall a, P (a :: l)) /\ (forall a b, P (a :: b :: l))) by tauto.
  induction l as [|x r (IH0 & IH1 & IH2)]; auto.
Qed.

Lemma decodeMap_nth (n : nat) :
  (n < 64)%nat ->
  Reference.decodeMap (nth n Reference.encodeStd "A"%char) = Some (Z.of_nat n).
Proof.
  intros H.
  do 64 (destruct n as [|n]; [reflexivity|]). lia.
Qed.

Lemma decodeMap_encode (z : Z) :
  Reference.decodeMap (Reference.encode z) = Some (z mod 64)%Z.
Proof.
  unfold Reference.encode.
  pose proof (Z.mod_pos_bound z 64 eq_refl).
  rewrite decodeMap_nth by lia.
  f_equal. lia.
Qed.

Lemma isNewline_nth (n : nat) :
  Reference.isNewline (nth n Reference.encodeStd "A"%char) = false.
Proof.
  do 64 (destruct n as [|n]; [reflexivity|]). now destruct n.
Qed.

Lemma isNewline_encode (z : Z) : Reference.isNewline (Reference.encode z) = false.
Proof.
  apply isNewline_nth.
Qed.

Lemma quantum3 (a b c : byte) :
  let val := (Z_of_byte a * 65536 + Z_of_byte b * 256 + Z_of_byte c)%Z in
  let val' := ((val / 262144) mod 64 * 262144 + (val / 4096) mod 64 * 4096
               + (val / 64) mod 64 * 64 + val mod 64)%Z in
  byte_of_Z (val' / 65536) = a /\ byte_of_Z (val' / 256) = b /\ byte_of_Z val' = c.
Proof.
  intros val val'.
  pose proof (Z_of_byte_range a). pose proof (Z_of_byte_range b).
  pose proof (Z_of_byte_range c).
  assert (Hv : val' = val) by (subst val val'; Z.div_mod_to_equations; lia).
  rewrite Hv. subst val.
  repeat split; apply byte_of_Z_of_byte; Z.div_mod_to_equations; lia.
Qed.

Lemma quantum2 (a b : byte) :
  let val := (Z_of_byte a * 65536 + Z_of_byte b * 256)%Z in
  let val' := ((val / 262144) mod 64 * 262144 + (val / 4096) mod 64 * 4096
               + (val / 64) mod 64 * 64)%Z in
  byte_of_Z (val' / 65536) = a /\ byte_of_Z (val' / 256) = b.
Proof.
  intros val val'.
  pose proof (Z_of_byte_range a). pose proof (Z_of_byte_range b).
  assert (Hv : val' = val) by (subst val val'; Z.div_mod_to_equations; lia).
  rewrite Hv. subst val.
  split; apply byte_of_Z_of_byte; Z.div_mod_to_equations; lia.
Qed.

Lemma quantum1 (a : byte) :
  let val := (Z_of_byte a * 65536)%Z in
  let val' := ((val / 262144) mod 64 * 262144 + (val / 4096) mod 64 * 4096)%Z in
  byte_of_Z (val' / 65536) = a.
Proof.
  intros val val'.
  pose proof (Z_of_byte_range a).
  assert (Hv : val' = val) by (subst val val'; Z.div_mod_to_equations; lia).
  rewrite Hv. subst val.
  apply byte_of_Z_of_byte; Z.div_mod_to_equations; lia.
Qed.

Lemma EncodeToString_no_newline (src : bytes) :
  filter (fun c => negb (Reference.isNewline c))
         (list_ascii_of_string (Reference.EncodeToString src))
  = list_ascii_of_string (Reference.EncodeToString src).
Proof.
  induction src as [|a|a b|a b c rest IH] using list_ind3;
    cbn [Reference.EncodeToString list_ascii_of_string filter];
    rewrite ?isNewline_encode; cbn [negb]; try rewrite IH; reflexivity.
Qed.

Lemma decodeQuanta_EncodeToString (src : bytes) :
  Reference.decodeQuanta (list_ascii_of_string (Reference.EncodeToString src))
  = (src, None).
Proof.
  induction src as [|a|a b|a b c rest IH] using list_ind3;
    cbn [Reference.EncodeToString list_ascii_of_string Reference.decodeQuanta].
  - reflexivity.
  - rewrite !decodeMap_encode. cbn.
    now rewrite (quantum1 a).
  - rewrite !decodeMap_encode. cbn.
    destruct (quantum2 a b) as [-> ->]. reflexivity.
  - rewrite !decodeMap_encode, IH.
    destruct (quantum3 a b c) as (-> & -> & ->). reflexivity.
Qed.

Lemma base64_DecodeString_EncodeToString (src : bytes) :
  Reference.DecodeString (Reference.EncodeToString src) = (src, None).
Proof.
  unfold Reference.DecodeString.
  now rewrite EncodeToString_no_newline, decodeQuanta_EncodeToString.
Qed.

Lemma xtob_digits (b : byte) :
  Reference.xtob (hex.digit (Z_of_byte b / 16)) (hex.digit (Z_of_byte b mod 16)) = Some b.
Proof.
  destruct b; vm_compute; reflexivity.
Qed.

Lemma hexPairs_EncodeToString (src : bytes) :
  Reference.hexPairs (list_ascii_of_string (hex.EncodeToString src)) = Some src.
Proof.
  induction src as [|b rest IH]; [reflexivity|].
  cbn [hex.EncodeToString list_ascii_of_string Reference.hexPairs].
  now rewrite xtob_digits, IH.
Qed.

Lemma Parse_String (u : uuid.UUID) : Reference.Parse (Reference.String_ u) = (u, None).
Proof.
  destruct u as [c0 c1 c2 c3 c4 c5 c6 c7 c8 c9 c10 c11 c12 c13 c14 c15].
  unfold Reference.Parse, Reference.String_.
  cbn [uuid.b0 uuid.b1 uuid.b2 uuid.b3 uuid.b4 uuid.b5 uuid.b6 uuid.b7 uuid.b8
       uuid.b9 uuid.b10 uuid.b11 uuid.b12 uuid.b13 uuid.b14 uuid.b15
       hex.EncodeToString String.append list_ascii_of_string List.length Nat.eqb].
  unfold Reference.parseCanonical, Reference.isDash.
  cbn [nth Ascii.eqb Bool.eqb andb firstn skipn app].
  unfold Reference.ofHex. cbn [Reference.hexPairs].
  rewrite !xtob_digits. reflexivity.
Qed.

Lemma Parse_hex (u : uuid.UUID) :
  Reference.Parse (hex.EncodeToString (uuid.to_bytes u)) = (u, None).
Proof.
  destruct u as [c0 c1 c2 c3 c4 c5 c6 c7 c8 c9 c10 c11 c12 c13 c14 c15].
  unfold Reference.Parse, uuid.to_bytes.
  cbn [uuid.b0 uuid.b1 uuid.b2 uuid.b3 uuid.b4 uuid.b5 uuid.b6 uuid.b7 uuid.b8
       uuid.b9 uuid.b10 uuid.b11 uuid.b12 uuid.b13 uuid.b14 uuid.b15
       hex.EncodeToString String.append list_ascii_of_string List.length Nat.eqb].
  unfold Reference.ofHex. cbn [Reference.hexPairs].
  rewrite !xtob_digits. reflexivity.
Qed.


(** ** The export codec *)

Lemma UUID_eqb_eq (u v : uuid.UUID) : UUID_eqb u v = true -> u = v.
Proof.
  destruct u, v. unfold UUID_eqb, uuid.to_bytes.
  cbn [forallb combine fst snd uuid.b0 uuid.b1 uuid.b2 uuid.b3 uuid.b4 uuid.b5
       uuid.b6 uuid.b7 uuid.b8 uuid.b9 uuid.b10 uuid.b11 uuid.b12 uuid.b13
       uuid.b14 uuid.b15].
  rewrite !andb_true_iff.
  intros H. decompose [and] H.
  repeat match goal with
         | Hb : Byte.eqb _ _ = true |- _ => apply Byte.byte_dec_bl in Hb
         end.
  subst. reflexivity.
Qed.

Lemma Time_eqb_eq (s t : time.Time) : Time_eqb s t = true -> s = t.
Proof.
  destruct s as [s1 n1], t as [s2 n2]. unfold Time_eqb. simpl.
  rewrite andb_true_iff, !Z.eqb_eq. now intros [-> ->].
Qed.

(** The nanoseconds of a time lie within the second: [time.Unix] has nothing
    to carry, and gives the time back. *)
Lemma Unix_of_Time (t : time.Time) :
  (0 <= time.nsec t < 1000000000)%Z ->
  time.Unix (time.Time_Unix t) (time.Time_Nanosecond t) = t.
Proof.
  intros [Hlo Hhi]. destruct t as [s n]. cbn in *.
  unfold time.Unix.
  apply Z.ltb_ge in Hlo. apply Z.leb_gt in Hhi.
  rewrite Hlo, Z.geb_leb, Hhi. reflexivity.
Qed.

Section Codec.

Context {E : Externals}.

(** A decode that gets through every check builds the device from the text
    fields; it leaves the id alone, the aaguid alone when the text reads as
    zero, and the last use alone when the text has none. *)
Lemma UnmarshalYAML_ok (d : WebAuthnDevice.t) (o : WebAuthnDeviceData.t)
  (publicKey kid : bytes) (aaguid : uuid.UUID) :
  base64_DecodeString (WebAuthnDeviceData.PublicKey o) = (publicKey, None) ->
  uuid_Parse (WebAuthnDeviceData.AAGUID o) = (aaguid, None) ->
  base64_DecodeString (WebAuthnDeviceData.KID o) = (kid, None) ->
  UnmarshalYAML d (yaml.Mapping o)
  = ({| WebAuthnDevice.ID := WebAuthnDevice.ID d;
        WebAuthnDevice.CreatedAt := WebAuthnDeviceData.CreatedAt o;
        WebAuthnDevice.LastUsedAt :=
          match WebAuthnDeviceData.LastUsedAt o with
          | Some t => {| NullTime.Time := t; NullTime.Valid := true |}
          | None => WebAuthnDevice.LastUsedAt d
          end;
        WebAuthnDevice.RPID := WebAuthnDeviceData.RPID o;
        WebAuthnDevice.Username := WebAuthnDeviceData.Username o;
        WebAuthnDevice.Description := WebAuthnDeviceData.Description o;
        WebAuthnDevice.KID := NewBase64 kid;
        WebAuthnDevice.PublicKey := publicKey;
        WebAuthnDevice.AttestationType := WebAuthnDeviceData.AttestationType o;
        WebAuthnDevice.Transport := WebAuthnDeviceData.Transport o;
        WebAuthnDevice.AAGUID :=
          if (uuid_ID aaguid =? 0)%Z then WebAuthnDevice.AAGUID d
          else {| NullUUID.UUID := aaguid; NullUUID.Valid := true |};
        WebAuthnDevice.SignCount := WebAuthnDeviceData.SignCount o;
        WebAuthnDevice.CloneWarning := WebAuthnDeviceData.CloneWarning o |}, None).
Proof.
  intros Hpk Hu Hkid. unfold UnmarshalYAML. cbn [yaml.Decode].
  rewrite Hpk, Hu, Hkid.
  destruct (uuid_ID aaguid =? 0)%Z, (WebAuthnDeviceData.LastUsedAt o); reflexivity.
Qed.

(** A decode that meets a text it cannot read returns the error. *)
Lemma UnmarshalYAML_error (d : WebAuthnDevice.t) (o : WebAuthnDeviceData.t) :
  invalidBase64 (WebAuthnDeviceData.PublicKey o)
  \/ invalidBase64 (WebAuthnDeviceData.KID o)
  \/ invalidUUID (WebAuthnDeviceData.AAGUID o) ->
  snd (UnmarshalYAML d (yaml.Mapping o)) <> None.
Proof.
  unfold invalidBase64, invalidUUID, UnmarshalYAML.
  cbn [yaml.Decode].
  destruct (base64_DecodeString (WebAuthnDeviceData.PublicKey o)) as [publicKey [e|]];
    cbn [fst snd]; [discriminate|].
  destruct (uuid_Parse (WebAuthnDeviceData.AAGUID o)) as [aaguid [e|]];
    cbn [fst snd]; [discriminate|].
  destruct (base64_DecodeString (WebAuthnDeviceData.KID o)) as [kid [e|]];
    cbn [fst snd]; [discriminate|].
  intros [H|[H|H]]; now elim H.
Qed.

Lemma UnmarshalYAML_Malformed (d : WebAuthnDevice.t) (e : error) :
  UnmarshalYAML d (yaml.Malformed e) = (d, Some e).
Proof.
  reflexivity.
Qed.

(** *** The container *)

Lemma decodeDevices_aborts (nodes : list yaml.Node) :
  Exists (fun value => ~ decodes value) nodes ->
  exists e, decodeDevices nodes = inl e.
Proof.
  unfold decodes.
  induction nodes as [|value rest IH]; intros H; [inversion H|].
  simpl.
  destruct (UnmarshalYAML WebAuthnDevice.zero value) as [d [e|]] eqn:Hv; [eauto|].
  inversion H as [? ? Hbad|? ? Hlater]; subst.
  - elim Hbad. now rewrite Hv.
  - destruct (IH Hlater) as [e ->]. eauto.
Qed.

Lemma decodeDevices_all (nodes : list yaml.Node) :
  Forall decodes nodes ->
  decodeDevices nodes
  = inr (map (fun value => fst (UnmarshalYAML WebAuthnDevice.zero value)) nodes).
Proof.
  unfold decodes.
  induction nodes as [|value rest IH]; intros H; [reflexivity|].
  inversion H as [|? ? Hv Hrest]; subst. simpl.
  destruct (UnmarshalYAML WebAuthnDevice.zero value) as [d [e|]]; [discriminate|].
  now rewrite (IH Hrest).
Qed.

End Codec.

(** ** The reference instance keeps the laws *)

Lemma golibs_laws : ExternalsLaws Reference.golibs.
Proof.
  constructor.
  - exact base64_DecodeString_EncodeToString.
  - exact Parse_String.
  - reflexivity.
Qed.

(** ** The constructor *)

Lemma NewWebAuthnDeviceFromCredential_AAGUID {E : Externals} (now : time.Time)
  (rpid username description : string) (credential : Credential.t) :
  WebAuthnDevice.AAGUID
    (NewWebAuthnDeviceFromCredential now rpid username description credential)
  = match uuid_Parse (hex.EncodeToString
                        (Authenticator.AAGUID (Credential.Authenticator credential))) with
    | (aaguid, None) =>
        if (uuid_ID aaguid =? 0)%Z then NullUUID.zero
        else {| NullUUID.UUID := aaguid; NullUUID.Valid := true |}
    | (_, Some _) => NullUUID.zero
    end.
Proof.
  unfold NewWebAuthnDeviceFromCredential.
  destruct (uuid_Parse _) as [aaguid [e|]]; [reflexivity|].
  now destruct (uuid_ID aaguid =? 0)%Z.
Qed.

Lemma NewWebAuthnDeviceFromCredential_Transport {E : Externals} (now : time.Time)
  (rpid username description : string) (credential : Credential.t) :
  WebAuthnDevice.Transport
    (NewWebAuthnDeviceFromCredential now rpid username description credential)
  = strings.Join (Credential.Transport credential) ",".
Proof.
  assert (Hcopy :
    transport_loop 0 (Credential.Transport credential)
      (make "" (List.length (Credential.Transport credential)))
    = Credential.Transport credential)
    by exact (transport_loop_copy (Credential.Transport credential) []).
  unfold NewWebAuthnDeviceFromCredential. rewrite Hcopy.
  destruct (uuid_Parse _) as [aaguid [e|]]; [reflexivity|].
  now destruct (negb (uuid_ID aaguid =? 0)%Z).
Qed.

(** * The claims *)



(** C2, as stated, fails: the export shape has no field for the surrogate
    id, so the id of a decoded device is the id of the receiver.  The key of
    john, a valid device with id 7, is not reproduced: its copy has id 0. *)
Lemma C2_id_is_not_reproduced :
  validDevice (E := Reference.golibs) Sample.key = true
  /\ UnmarshalYAML (E := Reference.golibs) WebAuthnDevice.zero
       (yaml.Mapping (ToData (E := Reference.golibs) Sample.key))
     <> (Sample.key, None).
Proof.
  split; [reflexivity|].
  intros H.
  apply (f_equal (fun r => WebAuthnDevice.ID (fst r))) in H.
  vm_compute in H. discriminate.
Qed.

(** C2, amended.  For every valid Device d (aaguid not set, or set to an
    identifier that does not read as zero; transport of any shape; last use
    absent or present), decoding the encoding of d into a fresh Device
    reproduces every field of d but the surrogate id, which the export shape
    does not carry and which stays zero. *)
Theorem C2_roundtrip_but_id {E : Externals} (L : ExternalsLaws E)
  (d : WebAuthnDevice.t) :
  validDevice d = true ->
  UnmarshalYAML WebAuthnDevice.zero (yaml.Mapping (ToData d))
  = (WebAuthnDevice.set_ID 0 d, None).
Proof.
  unfold validDevice, aaguidStored, lastUsedStored.
  rewrite andb_true_iff. intros [Ha Ht].
  rewrite (UnmarshalYAML_ok _ _ (WebAuthnDevice.PublicKey d)
             (Base64_Bytes (WebAuthnDevice.KID d))
             (NullUUID.UUID (WebAuthnDevice.AAGUID d)));
    try (cbn [ToData WebAuthnDeviceData.PublicKey WebAuthnDeviceData.KID
              WebAuthnDeviceData.AAGUID]; unfold Base64_String;
         solve [apply base64_roundtrip | apply uuid_roundtrip]).
  destruct d as [id created [lastTime lastValid] rpid username description [kid]
                 publicKey attestation transport [aaguid aaguidValid] signCount clone].
  cbn -[time.Unix Time_eqb UUID_eqb Z.leb Z.ltb] in Ha, Ht |- *.
  unfold LastUsed, WebAuthnDevice.set_ID. cbn -[time.Unix].
  f_equal. f_equal.
  - destruct lastValid.
    + apply andb_true_iff in Ht. destruct Ht as [Hlo Hhi].
      apply Z.leb_le in Hlo. apply Z.ltb_lt in Hhi.
      now rewrite Unix_of_Time by (split; assumption).
    + apply Time_eqb_eq in Ht. now subst lastTime.
  - destruct aaguidValid.
    + apply negb_true_iff in Ha. now rewrite Ha.
    + apply UUID_eqb_eq in Ha. subst aaguid.
      now rewrite uuid_ID_Nil.
Qed.

(** C2, amended, on john's key. *)
Lemma C2_roundtrip_but_id_witness :
  ExternalsLaws Reference.golibs
  /\ validDevice (E := Reference.golibs) Sample.key = true
  /\ UnmarshalYAML (E := Reference.golibs) WebAuthnDevice.zero
       (yaml.Mapping (ToData (E := Reference.golibs) Sample.key))
     = (WebAuthnDevice.set_ID 0 Sample.key, None).
Proof.
  split; [exact golibs_laws|].
  split; [reflexivity|].
  apply (C2_roundtrip_but_id golibs_laws Sample.key). reflexivity.
Defined.

(** C3 (the code departs from the claim).  The claim has the aaguid marked
    valid whenever the credential's bytes parse as a UUID other than the
    all-zero one.  The code marks it valid when the bytes parse and
    [aaguid.ID()] is not zero, and [ID] reads the first four bytes only.  The
    registration below reports the sixteen bytes
    00000000-0000-0000-0000-000000000001: they parse, the parsed value is not
    the all-zero UUID, and the produced Device has its aaguid unset. *)
Theorem C3_aaguid_with_zero_head_is_left_unset :
  (forall (E : Externals) (now : time.Time) (rpid username description : string)
          (credential : Credential.t),
     WebAuthnDevice.AAGUID
       (NewWebAuthnDeviceFromCredential now rpid username description credential)
     = match uuid_Parse (hex.EncodeToString
                           (Authenticator.AAGUID
                              (Credential.Authenticator credential))) with
       | (aaguid, None) =>
           if (uuid_ID aaguid =? 0)%Z then NullUUID.zero
           else {| NullUUID.UUID := aaguid; NullUUID.Valid := true |}
       | (_, Some _) => NullUUID.zero
       end)
  /\ @uuid_Parse Reference.golibs
       (hex.EncodeToString
          (Authenticator.AAGUID (Credential.Authenticator Sample.registration)))
     = (Sample.aaguidLowOnly, None)
  /\ Sample.aaguidLowOnly <> uuid.Nil
  /\ WebAuthnDevice.AAGUID
       (NewWebAuthnDeviceFromCredential (E := Reference.golibs) Sample.now
          "login.example.com" "john" "Key" Sample.registration)
     = NullUUID.zero.
Proof.
  split; [intros; apply NewWebAuthnDeviceFromCredential_AAGUID|].
  split; [reflexivity|].
  split; [discriminate|].
  reflexivity.
Qed.

(** C4.  The sign-in updater assigns rpid only when it is empty: the
    configured origin for the attestation type "fido-u2f", the configured
    relying-party id for any other; a device whose rpid is not empty keeps it
    through one call and through any run of calls, whatever the
    configurations; so in any run at most one call changes rpid. *)
Theorem C4_rpid_assigned_once (d : WebAuthnDevice.t) (config : Config.t)
  (now : time.Time) (signCount : Z) :
  (WebAuthnDevice.RPID d = "" ->
   WebAuthnDevice.RPID (UpdateSignInInfo d config now signCount)
   = if String.eqb (WebAuthnDevice.AttestationType d) "fido-u2f"
     then Config.RPOrigin config else Config.RPID config)
  /\ (WebAuthnDevice.RPID d <> "" ->
      WebAuthnDevice.RPID (UpdateSignInInfo d config now signCount)
      = WebAuthnDevice.RPID d)
  /\ (forall calls : list SignIn,
        WebAuthnDevice.RPID d <> "" ->
        WebAuthnDevice.RPID (signIns d calls) = WebAuthnDevice.RPID d)
  /\ (forall calls : list SignIn, rpidChanges d calls <= 1).
Proof.
  repeat split.
  - intros H. rewrite UpdateSignInInfo_RPID, H. reflexivity.
  - intros H. exact (signIn_frozen d (config, now, signCount) H).
  - intros calls H. exact (signIns_frozen calls d H).
  - intros calls. exact (rpidChanges_once calls d).
Qed.

(** C4 on john's migrated device: the first sign-in gives it the origin, a
    second one under another configuration leaves it. *)
Lemma C4_rpid_assigned_once_witness :
  WebAuthnDevice.RPID Sample.legacy = ""
  /\ WebAuthnDevice.RPID (UpdateSignInInfo Sample.legacy Sample.config Sample.now 1)
     = "https://login.example.com"
  /\ WebAuthnDevice.RPID
       (signIns (UpdateSignInInfo Sample.legacy Sample.config Sample.now 1)
          [(Sample.otherConfig, Sample.later, 2%Z)])
     = "https://login.example.com".
Proof.
  split; [reflexivity|].
  split.
  - exact (proj1 (C4_rpid_assigned_once Sample.legacy Sample.config Sample.now 1)
             eq_refl).
  - refine (proj1 (proj2 (proj2
              (C4_rpid_assigned_once
                 (UpdateSignInInfo Sample.legacy Sample.config Sample.now 1)
                 Sample.otherConfig Sample.later 2))) _ _).
    discriminate.
Defined.

(** C5, as stated, fails: a failing decode does not leave the receiver as it
    was.  [UnmarshalYAML] writes each field as soon as its text is read, and
    has no step that restores the receiver.  Decoding, into john's old key, a
    record whose aaguid text is not a UUID returns an error, and by then the
    public key of the old key has been replaced by the record's. *)
Lemma C5_failing_decode_writes_public_key :
  invalidUUID (E := Reference.golibs)
    (WebAuthnDeviceData.AAGUID (Sample.record "AQID" "pQEC" "not-a-uuid"))
  /\ snd (UnmarshalYAML (E := Reference.golibs) Sample.legacy
            (yaml.Mapping (Sample.record "AQID" "pQEC" "not-a-uuid"))) <> None
  /\ fst (UnmarshalYAML (E := Reference.golibs) Sample.legacy
            (yaml.Mapping (Sample.record "AQID" "pQEC" "not-a-uuid")))
     <> Sample.legacy.
Proof.
  split; [discriminate|].
  split; [discriminate|].
  intros H. apply (f_equal WebAuthnDevice.PublicKey) in H.
  vm_compute in H. discriminate.
Qed.

(** C5, amended.  For every DeviceData input whose public-key text or kid
    text is not valid base64, or whose aaguid text is not a syntactically
    valid UUID, decoding fails the whole operation with an error, whatever
    the receiver; the failing decode leaves every field of the receiver
    other than public_key and aaguid as it was; public_key holds what the
    base64 decoder gave for the public-key text, and aaguid is as it was or
    holds the identifier parsed from the aaguid text, marked valid. *)
Theorem C5_invalid_text_fails_decode {E : Externals} (d : WebAuthnDevice.t)
  (o : WebAuthnDeviceData.t) :
  invalidBase64 (WebAuthnDeviceData.PublicKey o)
  \/ invalidBase64 (WebAuthnDeviceData.KID o)
  \/ invalidUUID (WebAuthnDeviceData.AAGUID o) ->
  let d' := fst (UnmarshalYAML d (yaml.Mapping o)) in
  snd (UnmarshalYAML d (yaml.Mapping o)) <> None
  /\ sameButKeyAndAaguid d d'
  /\ WebAuthnDevice.PublicKey d'
     = fst (base64_DecodeString (WebAuthnDeviceData.PublicKey o))
  /\ (WebAuthnDevice.AAGUID d' = WebAuthnDevice.AAGUID d
      \/ WebAuthnDevice.AAGUID d'
         = {| NullUUID.UUID := fst (uuid_Parse (WebAuthnDeviceData.AAGUID o));
              NullUUID.Valid := true |}).
Proof.
  intros Hbad d'. split; [exact (UnmarshalYAML_error d o Hbad)|].
  subst d'. revert Hbad.
  unfold invalidBase64, invalidUUID, UnmarshalYAML, sameButKeyAndAaguid.
  cbn [yaml.Decode].
  destruct (base64_DecodeString (WebAuthnDeviceData.PublicKey o)) as [publicKey [e|]];
    cbn [fst snd]; [intros _; repeat split; now left|].
  destruct (uuid_Parse (WebAuthnDeviceData.AAGUID o)) as [aaguid [e|]];
    cbn [fst snd]; [intros _; repeat split; now left|].
  destruct (base64_DecodeString (WebAuthnDeviceData.KID o)) as [kid [e|]];
    cbn [fst snd].
  - intros _. destruct (uuid_ID aaguid =? 0)%Z; cbn; repeat split;
      [now left | now right].
  - intros [H|[H|H]]; now elim H.
Qed.

(** C5, amended, on a record whose kid text is not base64, decoded into
    john's migrated device. *)
Lemma C5_invalid_text_fails_decode_witness :
  invalidBase64 (E := Reference.golibs)
    (WebAuthnDeviceData.KID (Sample.record "AQ*D" "pQEC" Sample.nilText))
  /\ snd (UnmarshalYAML (E := Reference.golibs) Sample.legacy
            (yaml.Mapping (Sample.record "AQ*D" "pQEC" Sample.nilText))) <> None
  /\ sameButKeyAndAaguid Sample.legacy
       (fst (UnmarshalYAML (E := Reference.golibs) Sample.legacy
               (yaml.Mapping (Sample.record "AQ*D" "pQEC" Sample.nilText)))).
Proof.
  split; [discriminate|].
  destruct (C5_invalid_text_fails_decode (E := Reference.golibs) Sample.legacy
              (Sample.record "AQ*D" "pQEC" Sample.nilText))
    as (Herr & Hsame & _).
  - right; left. discriminate.
  - split; [exact Herr | exact Hsame].
Defined.

(** C6.  Encoding an export container applies the device codec to each
    element on its own, in the order of the input.  Decoding a container in
    which an element fails to decode fails as a whole and returns no device;
    when every element decodes, the devices come back in the order of the
    input; in particular a container of three records of which exactly one
    has an invalid public-key text fails to decode. *)
Theorem C6_container_codec {E : Externals} :
  (forall export : WebAuthnDeviceExport.t,
     WebAuthnDeviceDataExport.WebAuthnDevices (WebAuthnDeviceExport_ToData export)
     = map ToData (WebAuthnDeviceExport.WebAuthnDevices export))
  /\ (forall nodes : list yaml.Node,
        Exists (fun value => ~ decodes value) nodes ->
        exists e, WebAuthnDeviceExport_UnmarshalYAML nodes = inl e)
  /\ (forall nodes : list yaml.Node,
        Forall decodes nodes ->
        WebAuthnDeviceExport_UnmarshalYAML nodes
        = inr {| WebAuthnDeviceExport.WebAuthnDevices :=
                   map (fun value => fst (UnmarshalYAML WebAuthnDevice.zero value))
                       nodes |})
  /\ (forall o1 o2 o3 : WebAuthnDeviceData.t,
        let bad o := invalidBase64 (WebAuthnDeviceData.PublicKey o) in
        (bad o1 /\ ~ bad o2 /\ ~ bad o3)
        \/ (~ bad o1 /\ bad o2 /\ ~ bad o3)
        \/ (~ bad o1 /\ ~ bad o2 /\ bad o3) ->
        exists e,
          WebAuthnDeviceExport_UnmarshalYAML
            [yaml.Mapping o1; yaml.Mapping o2; yaml.Mapping o3]
          = inl e).
Proof.
  assert (Habort : forall nodes : list yaml.Node,
             Exists (fun value => ~ decodes value) nodes ->
             exists e, WebAuthnDeviceExport_UnmarshalYAML nodes = inl e).
  { intros nodes H. unfold WebAuthnDeviceExport_UnmarshalYAML.
    destruct (decodeDevices_aborts nodes H) as [e ->]. eauto. }
  assert (Hbad : forall o : WebAuthnDeviceData.t,
             invalidBase64 (WebAuthnDeviceData.PublicKey o) ->
             ~ decodes (yaml.Mapping o)).
  { intros o H. unfold decodes.
    apply (UnmarshalYAML_error WebAuthnDevice.zero o). now left. }
  split; [exact WebAuthnDeviceExport_ToData_map|].
  split; [exact Habort|].
  split.
  - intros nodes H. unfold WebAuthnDeviceExport_UnmarshalYAML.
    now rewrite (decodeDevices_all nodes H).
  - intros o1 o2 o3 bad [(H & _)|[(_ & H & _)|(_ & _ & H)]]; apply Habort.
    + apply Exists_cons_hd. now apply Hbad.
    + apply Exists_cons_tl, Exists_cons_hd. now apply Hbad.
    + apply Exists_cons_tl, Exists_cons_tl, Exists_cons_hd. now apply Hbad.
Qed.

(** C6 on three records, the second with a public-key text that is not
    base64. *)
Lemma C6_container_codec_witness :
  let o1 := Sample.record "AQID" "pQEC" Sample.nilText in
  let o2 := Sample.record "BAUG" "pQ$C" Sample.nilText in
  let o3 := Sample.record "BwgJ" "pQED" Sample.nilText in
  (~ invalidBase64 (E := Reference.golibs) (WebAuthnDeviceData.PublicKey o1)
   /\ invalidBase64 (E := Reference.golibs) (WebAuthnDeviceData.PublicKey o2)
   /\ ~ invalidBase64 (E := Reference.golibs) (WebAuthnDeviceData.PublicKey o3))
  /\ exists e,
       WebAuthnDeviceExport_UnmarshalYAML (E := Reference.golibs)
         [yaml.Mapping o1; yaml.Mapping o2; yaml.Mapping o3] = inl e.
Proof.
  intros o1 o2 o3.
  assert (H : ~ invalidBase64 (E := Reference.golibs) (WebAuthnDeviceData.PublicKey o1)
              /\ invalidBase64 (E := Reference.golibs) (WebAuthnDeviceData.PublicKey o2)
              /\ ~ invalidBase64 (E := Reference.golibs) (WebAuthnDeviceData.PublicKey o3)).
  { split; [intros H; now apply H|].
    split; [discriminate|].
    intros H; now apply H. }
  split; [exact H|].
  apply (proj2 (proj2 (proj2 (C6_container_codec (E := Reference.golibs)))) o1 o2 o3).
  right; left. exact H.
Defined.

(** C7.  For every Device, configuration, time value and reported sign
    counter, [UpdateSignInInfo] sets last_used_at to the given time, valid,
    and sign_count to the reported value: whatever the prior counter, and
    whether or not the call assigns rpid. *)
Theorem C7_sign_in_overwrites_counter_and_last_use (d : WebAuthnDevice.t)
  (config : Config.t) (now : time.Time) (signCount : Z) :
  WebAuthnDevice.LastUsedAt (UpdateSignInInfo d config now signCount)
  = {| NullTime.Time := now; NullTime.Valid := true |}
  /\ WebAuthnDevice.SignCount (UpdateSignInInfo d config now signCount) = signCount.
Proof.
  unfold UpdateSignInInfo; simpl.
  destruct (String.eqb (WebAuthnDevice.RPID d) ""); simpl; [|split; reflexivity].
  destruct (String.eqb (WebAuthnDevice.AttestationType d) attestationTypeFIDOU2F);
    split; reflexivity.
Qed.

(** C8.  For every Device that the translation turns into a credential, the
    credential's transport list is the stored transport string split on the
    comma, less the empty tokens, in the stored order: the tokens hold no
    comma and joined by commas give the stored string back; no entry of the
    list is empty; the stored form of any list of tokens translates to that
    list; "usb,nfc" gives [usb, nfc]; the empty string gives the empty list. *)
Theorem C8_transport_translation {E : Externals} (w : WebAuthnUser.t) (i : nat)
  (device : WebAuthnDevice.t) (aaguid : bytes) :
  nth_error (WebAuthnUser.Devices w) i = Some device ->
  NullUUID_MarshalBinary (WebAuthnDevice.AAGUID device) = (aaguid, None) ->
  exists credential : Credential.t,
    nth_error (WebAuthnCredentials w) i = Some credential
    /\ let tokens := strings.Split (WebAuthnDevice.Transport device) ","%char in
       Credential.Transport credential = filter nonEmpty tokens
       /\ strings.Join tokens "," = WebAuthnDevice.Transport device
       /\ Forall (fun t => hasComma t = false) tokens
       /\ ~ In "" (Credential.Transport credential)
       /\ (forall ts : list string,
             forallb isToken ts = true ->
             WebAuthnDevice.Transport device = strings.Join ts "," ->
             Credential.Transport credential = ts)
       /\ (WebAuthnDevice.Transport device = "usb,nfc" ->
           Credential.Transport credential = ["usb"; "nfc"])
       /\ (WebAuthnDevice.Transport device = "" ->
           Credential.Transport credential = []).
Proof.
  intros Hi Hm.
  exists (credentialOf device aaguid). split.
  - rewrite WebAuthnCredentials_slots.
    rewrite nth_error_map, Hi. simpl. unfold credentialSlot. now rewrite Hm.
  - intros tokens. rewrite credentialOf_Transport. fold tokens.
    split; [reflexivity|].
    split; [exact (Join_genSplit ","%char _ _)|].
    split.
    { eapply Forall_impl; [|exact (genSplit_separator_free ","%char _ _ eq_refl)].
      intros t Ht. now apply hasComma_Count. }
    split.
    { intros Hin. apply filter_In in Hin. destruct Hin as [_ Hne]. discriminate. }
    split.
    { intros ts Hts Heq. subst tokens. rewrite Heq. now apply transports_of_Join. }
    split; intros Heq; subst tokens; rewrite Heq; reflexivity.
Qed.

(** C8 on john's key, stored with the transport "usb,nfc". *)
Lemma C8_transport_translation_witness :
  nth_error (WebAuthnUser.Devices Sample.john) 0 = Some Sample.key
  /\ @NullUUID_MarshalBinary Reference.golibs (WebAuthnDevice.AAGUID Sample.key)
     = (uuid.to_bytes Sample.aaguid, None)
  /\ exists credential : Credential.t,
       nth_error (WebAuthnCredentials (E := Reference.golibs) Sample.john) 0
       = Some credential
       /\ Credential.Transport credential = ["usb"; "nfc"].
Proof.
  split; [reflexivity|].
  split; [reflexivity|].
  destruct (C8_transport_translation (E := Reference.golibs) Sample.john 0
              Sample.key (uuid.to_bytes Sample.aaguid) eq_refl eq_refl)
    as (credential & Hslot & _ & _ & _ & _ & _ & Husb & _).
  exists credential. split; [exact Hslot|].
  apply Husb. reflexivity.
Defined.

(** C9.  For every WebAuthnUser, [HasFIDOU2F] returns true if and only if at
    least one of the user's devices has the attestation type "fido-u2f"; for
    an empty device list it returns false. *)
Theorem C9_HasFIDOU2F_iff_some_legacy_device (w : WebAuthnUser.t) :
  (HasFIDOU2F w = true
   <-> Exists (fun c => WebAuthnDevice.AttestationType c = "fido-u2f")
              (WebAuthnUser.Devices w))
  /\ (forall username displayName : string,
        HasFIDOU2F
          {| WebAuthnUser.Username := username;
             WebAuthnUser.DisplayName := displayName;
             WebAuthnUser.Devices := [] |} = false).
Proof.
  split; [|reflexivity].
  unfold HasFIDOU2F.
  induction (WebAuthnUser.Devices w) as [|c rest IH]; simpl.
  - split; [discriminate | intros H; inversion H].
  - destruct (String.eqb (WebAuthnDevice.AttestationType c) attestationTypeFIDOU2F)
      eqn:Hc.
    + split; [|reflexivity]. intros _. left. now apply String.eqb_eq.
    + rewrite IH. split; [now right|].
      intros H. inversion H as [? ? Hhd|? ? Htl]; subst; [|assumption].
      apply String.eqb_neq in Hc. now elim Hc.
Qed.

(** C10.  For every Device, configuration, time value and sign counter,
    [UpdateSignInInfo] leaves every field other than last_used_at, sign_count
    and rpid as it was: id, created_at, username, description, kid,
    public_key, attestation_type, transport, aaguid and clone_warning. *)
Theorem C10_sign_in_frame (d : WebAuthnDevice.t) (config : Config.t)
  (now : time.Time) (signCount : Z) :
  let d' := UpdateSignInInfo d config now signCount in
  WebAuthnDevice.ID d' = WebAuthnDevice.ID d
  /\ WebAuthnDevice.CreatedAt d' = WebAuthnDevice.CreatedAt d
  /\ WebAuthnDevice.Username d' = WebAuthnDevice.Username d
  /\ WebAuthnDevice.Description d' = WebAuthnDevice.Description d
  /\ WebAuthnDevice.KID d' = WebAuthnDevice.KID d
  /\ WebAuthnDevice.PublicKey d' = WebAuthnDevice.PublicKey d
  /\ WebAuthnDevice.AttestationType d' = WebAuthnDevice.AttestationType d
  /\ WebAuthnDevice.Transport d' = WebAuthnDevice.Transport d
  /\ WebAuthnDevice.AAGUID d' = WebAuthnDevice.AAGUID d
  /\ WebAuthnDevice.CloneWarning d' = WebAuthnDevice.CloneWarning d.
Proof.
  unfold UpdateSignInInfo; simpl.
  destruct (String.eqb (WebAuthnDevice.RPID d) ""); simpl; [|repeat split].
  destruct (String.eqb (WebAuthnDevice.AttestationType d) attestationTypeFIDOU2F);
    repeat split.
Qed.

(** * Further properties *)

(** ** The export codec, further *)

Lemma UUID_eqb_refl (u : uuid.UUID) : UUID_eqb u u = true.
Proof.
  destruct u. unfold UUID_eqb, uuid.to_bytes.
  cbn [forallb combine fst snd uuid.b0 uuid.b1 uuid.b2 uuid.b3 uuid.b4 uuid.b5
       uuid.b6 uuid.b7 uuid.b8 uuid.b9 uuid.b10 uuid.b11 uuid.b12 uuid.b13
       uuid.b14 uuid.b15].
  rewrite !(Byte.byte_dec_lb eq_refl). reflexivity.
Qed.

Section CodecFurther.

Context {E : Externals}.

(** The decode of a record, step by step: what each failing text leaves of
    the receiver, and what a full decode builds. *)
Lemma UnmarshalYAML_Mapping (d : WebAuthnDevice.t) (o : WebAuthnDeviceData.t) :
  UnmarshalYAML d (yaml.Mapping o)
  = match base64_DecodeString (WebAuthnDeviceData.PublicKey o),
          uuid_Parse (WebAuthnDeviceData.AAGUID o),
          base64_DecodeString (WebAuthnDeviceData.KID o) with
    | (publicKey, Some e), _, _ => (WebAuthnDevice.set_PublicKey publicKey d, Some e)
    | (publicKey, None), (_, Some e), _ =>
        (WebAuthnDevice.set_PublicKey publicKey d, Some e)
    | (publicKey, None), (aaguid, None), (_, Some e) =>
        (WebAuthnDevice.set_AAGUID
           (if (uuid_ID aaguid =? 0)%Z then WebAuthnDevice.AAGUID d
            else {| NullUUID.UUID := aaguid; NullUUID.Valid := true |})
           (WebAuthnDevice.set_PublicKey publicKey d), Some e)
    | (publicKey, None), (aaguid, None), (kid, None) =>
        ({| WebAuthnDevice.ID := WebAuthnDevice.ID d;
            WebAuthnDevice.CreatedAt := WebAuthnDeviceData.CreatedAt o;
            WebAuthnDevice.LastUsedAt :=
              match WebAuthnDeviceData.LastUsedAt o with
              | Some t => {| NullTime.Time := t; NullTime.Valid := true |}
              | None => WebAuthnDevice.LastUsedAt d
              end;
            WebAuthnDevice.RPID := WebAuthnDeviceData.RPID o;
            WebAuthnDevice.Username := WebAuthnDeviceData.Username o;
            WebAuthnDevice.Description := WebAuthnDeviceData.Description o;
            WebAuthnDevice.KID := NewBase64 kid;
            WebAuthnDevice.PublicKey := publicKey;
            WebAuthnDevice.AttestationType := WebAuthnDeviceData.AttestationType o;
            WebAuthnDevice.Transport := WebAuthnDeviceData.Transport o;
            WebAuthnDevice.AAGUID :=
              if (uuid_ID aaguid =? 0)%Z then WebAuthnDevice.AAGUID d
              else {| NullUUID.UUID := aaguid; NullUUID.Valid := true |};
            WebAuthnDevice.SignCount := WebAuthnDeviceData.SignCount o;
            WebAuthnDevice.CloneWarning := WebAuthnDeviceData.CloneWarning o |}, None)
    end.
Proof.
  unfold UnmarshalYAML. cbn [yaml.Decode].
  destruct (base64_DecodeString (WebAuthnDeviceData.PublicKey o)) as [publicKey [e|]];
    [reflexivity|].
  destruct (uuid_Parse (WebAuthnDeviceData.AAGUID o)) as [aaguid [e|]];
    [reflexivity|].
  destruct (base64_DecodeString (WebAuthnDeviceData.KID o)) as [kid [e|]].
  - destruct (uuid_ID aaguid =? 0)%Z; [now destruct d | reflexivity].
  - destruct (uuid_ID aaguid =? 0)%Z, (WebAuthnDeviceData.LastUsedAt o); reflexivity.
Qed.

(** X1.  A record decodes if and only if its public-key text, its aaguid text
    and its kid text are all accepted by their decoders; and whether a node
    decodes, and with which error it fails, does not depend on the receiver. *)
Theorem X1_decode_succeeds_iff_texts_valid (d : WebAuthnDevice.t)
  (o : WebAuthnDeviceData.t) :
  (snd (UnmarshalYAML d (yaml.Mapping o)) = None
   <-> snd (base64_DecodeString (WebAuthnDeviceData.PublicKey o)) = None
       /\ snd (uuid_Parse (WebAuthnDeviceData.AAGUID o)) = None
       /\ snd (base64_DecodeString (WebAuthnDeviceData.KID o)) = None)
  /\ (forall (d' : WebAuthnDevice.t) (value : yaml.Node),
        snd (UnmarshalYAML d' value) = snd (UnmarshalYAML d value)).
Proof.
  split.
  - rewrite UnmarshalYAML_Mapping.
    destruct (base64_DecodeString (WebAuthnDeviceData.PublicKey o)) as [publicKey [e|]];
      cbn [snd]; [split; [discriminate | intros (H & _); discriminate]|].
    destruct (uuid_Parse (WebAuthnDeviceData.AAGUID o)) as [aaguid [e|]];
      cbn [snd]; [split; [discriminate | intros (_ & H & _); discriminate]|].
    destruct (base64_DecodeString (WebAuthnDeviceData.KID o)) as [kid [e|]];
      cbn [snd]; [split; [discriminate | intros (_ & _ & H); discriminate]|].
    tauto.
  - intros d' [o'|e]; [|reflexivity].
    rewrite !UnmarshalYAML_Mapping.
    destruct (base64_DecodeString (WebAuthnDeviceData.PublicKey o')) as [publicKey [e|]];
      [reflexivity|].
    destruct (uuid_Parse (WebAuthnDeviceData.AAGUID o')) as [aaguid [e|]];
      [reflexivity|].
    destruct (base64_DecodeString (WebAuthnDeviceData.KID o')) as [kid [e|]];
      reflexivity.
Qed.

(** X2.  A decode that succeeds keeps three things of the receiver: its id,
    always; its aaguid, when the identifier parsed from the aaguid text reads
    as zero; its last use, when the record has none.  A receiver that was in
    use is therefore not reset by decoding a record without them. *)
Theorem X2_decode_keeps_receiver_values (d : WebAuthnDevice.t)
  (o : WebAuthnDeviceData.t) :
  snd (UnmarshalYAML d (yaml.Mapping o)) = None ->
  let d' := fst (UnmarshalYAML d (yaml.Mapping o)) in
  WebAuthnDevice.ID d' = WebAuthnDevice.ID d
  /\ (uuid_ID (fst (uuid_Parse (WebAuthnDeviceData.AAGUID o))) = 0%Z ->
      WebAuthnDevice.AAGUID d' = WebAuthnDevice.AAGUID d)
  /\ (WebAuthnDeviceData.LastUsedAt o = None ->
      WebAuthnDevice.LastUsedAt d' = WebAuthnDevice.LastUsedAt d).
Proof.
  rewrite UnmarshalYAML_Mapping.
  destruct (base64_DecodeString (WebAuthnDeviceData.PublicKey o)) as [publicKey [e|]];
    [discriminate|].
  destruct (uuid_Parse (WebAuthnDeviceData.AAGUID o)) as [aaguid [e|]];
    [discriminate|].
  destruct (base64_DecodeString (WebAuthnDeviceData.KID o)) as [kid [e|]];
    [discriminate|].
  intros _. cbn. split; [reflexivity|]. split.
  - intros H. now rewrite H.
  - intros H. now rewrite H.
Qed.

(** X3.  Decoding never leaves an aaguid that is valid with an identifier
    reading as zero: a receiver whose aaguid is in a stored state has its
    aaguid in a stored state after any decode, failed or not. *)
Theorem X3_decode_keeps_aaguid_stored (d : WebAuthnDevice.t) (value : yaml.Node) :
  aaguidStored d = true ->
  aaguidStored (fst (UnmarshalYAML d value)) = true.
Proof.
  intros Hd. destruct value as [o|e]; [|exact Hd].
  rewrite UnmarshalYAML_Mapping.
  destruct (base64_DecodeString (WebAuthnDeviceData.PublicKey o)) as [publicKey [e|]];
    [exact Hd|].
  destruct (uuid_Parse (WebAuthnDeviceData.AAGUID o)) as [aaguid [e|]];
    [exact Hd|].
  destruct (base64_DecodeString (WebAuthnDeviceData.KID o)) as [kid [e|]];
    unfold aaguidStored in *; cbn [fst WebAuthnDevice.AAGUID WebAuthnDevice.set_AAGUID
                                   WebAuthnDevice.set_PublicKey];
    destruct (uuid_ID aaguid =? 0)%Z eqn:Hid; try exact Hd;
    cbn [NullUUID.Valid NullUUID.UUID]; now rewrite Hid.
Qed.

Context {L : ExternalsLaws E}.

(** Decoding the encoding of any device into any receiver. *)
Lemma UnmarshalYAML_ToData_onto (r d : WebAuthnDevice.t) :
  UnmarshalYAML r (yaml.Mapping (ToData d))
  = ({| WebAuthnDevice.ID := WebAuthnDevice.ID r;
        WebAuthnDevice.CreatedAt := WebAuthnDevice.CreatedAt d;
        WebAuthnDevice.LastUsedAt :=
          match LastUsed d with
          | Some t => {| NullTime.Time := t; NullTime.Valid := true |}
          | None => WebAuthnDevice.LastUsedAt r
          end;
        WebAuthnDevice.RPID := WebAuthnDevice.RPID d;
        WebAuthnDevice.Username := WebAuthnDevice.Username d;
        WebAuthnDevice.Description := WebAuthnDevice.Description d;
        WebAuthnDevice.KID := WebAuthnDevice.KID d;
        WebAuthnDevice.PublicKey := WebAuthnDevice.PublicKey d;
        WebAuthnDevice.AttestationType := WebAuthnDevice.AttestationType d;
        WebAuthnDevice.Transport := WebAuthnDevice.Transport d;
        WebAuthnDevice.AAGUID :=
          if (uuid_ID (NullUUID.UUID (WebAuthnDevice.AAGUID d)) =? 0)%Z
          then WebAuthnDevice.AAGUID r
          else {| NullUUID.UUID := NullUUID.UUID (WebAuthnDevice.AAGUID d);
                  NullUUID.Valid := true |};
        WebAuthnDevice.SignCount := WebAuthnDevice.SignCount d;
        WebAuthnDevice.CloneWarning := WebAuthnDevice.CloneWarning d |}, None).
Proof.
  rewrite UnmarshalYAML_Mapping.
  cbn [ToData WebAuthnDeviceData.PublicKey WebAuthnDeviceData.KID
       WebAuthnDeviceData.AAGUID WebAuthnDeviceData.CreatedAt
       WebAuthnDeviceData.LastUsedAt WebAuthnDeviceData.RPID
       WebAuthnDeviceData.Username WebAuthnDeviceData.Description
       WebAuthnDeviceData.AttestationType WebAuthnDeviceData.Transport
       WebAuthnDeviceData.SignCount WebAuthnDeviceData.CloneWarning].
  unfold Base64_String.
  rewrite !base64_roundtrip, uuid_roundtrip.
  now destruct (WebAuthnDevice.KID d).
Qed.

(** X4.  Decoding the encoding of a valid device into a receiver that is
    not fresh: every field written by the record is that of the device, the
    id is the receiver's, and so are the aaguid and the last use when the
    device has none of its own. *)
Theorem X4_roundtrip_onto_used_receiver (r d : WebAuthnDevice.t) :
  validDevice d = true ->
  UnmarshalYAML r (yaml.Mapping (ToData d))
  = (WebAuthnDevice.set_ID (WebAuthnDevice.ID r)
       (WebAuthnDevice.set_AAGUID
          (if NullUUID.Valid (WebAuthnDevice.AAGUID d)
           then WebAuthnDevice.AAGUID d else WebAuthnDevice.AAGUID r)
          (WebAuthnDevice.set_LastUsedAt
             (if NullTime.Valid (WebAuthnDevice.LastUsedAt d)
              then WebAuthnDevice.LastUsedAt d else WebAuthnDevice.LastUsedAt r)
             d)), None).
Proof.
  unfold validDevice, aaguidStored, lastUsedStored.
  rewrite andb_true_iff. intros [Ha Ht].
  rewrite UnmarshalYAML_ToData_onto. unfold LastUsed.
  destruct d as [id created [lastTime lastValid] rpid username description kid
                 publicKey attestation transport [aaguid aaguidValid] signCount clone].
  cbn -[time.Unix Time_eqb UUID_eqb Z.leb Z.ltb] in Ha, Ht |- *.
  unfold WebAuthnDevice.set_ID, WebAuthnDevice.set_AAGUID,
    WebAuthnDevice.set_LastUsedAt.
  cbn -[time.Unix]. f_equal. f_equal.
  - destruct lastValid; [|reflexivity].
    apply andb_true_iff in Ht. destruct Ht as [Hlo Hhi].
    apply Z.leb_le in Hlo. apply Z.ltb_lt in Hhi.
    now rewrite Unix_of_Time by (split; assumption).
  - destruct aaguidValid.
    + apply negb_true_iff in Ha. now rewrite Ha.
    + apply UUID_eqb_eq in Ha. subst aaguid. now rewrite uuid_ID_Nil.
Qed.

(** X5.  An aaguid of all-zero bytes reports unset after a trip through the
    codec, whether the device had it marked valid or not. *)
Theorem X5_zero_aaguid_decodes_unset (d : WebAuthnDevice.t) :
  NullUUID.UUID (WebAuthnDevice.AAGUID d) = uuid.Nil ->
  WebAuthnDevice.AAGUID
    (fst (UnmarshalYAML WebAuthnDevice.zero (yaml.Mapping (ToData d))))
  = NullUUID.zero.
Proof.
  intros Hnil. rewrite UnmarshalYAML_ToData_onto. cbn [fst WebAuthnDevice.AAGUID].
  now rewrite Hnil, uuid_ID_Nil.
Qed.

(** X6.  The export shape loses nothing of a valid device but its id: two
    valid devices with the same export shape are the same device, up to
    their ids. *)
Theorem X6_export_shape_determines_device (d1 d2 : WebAuthnDevice.t) :
  validDevice d1 = true ->
  validDevice d2 = true ->
  ToData d1 = ToData d2 ->
  WebAuthnDevice.set_ID 0 d1 = WebAuthnDevice.set_ID 0 d2.
Proof.
  intros H1 H2 Heq.
  pose proof (UnmarshalYAML_ToData_onto WebAuthnDevice.zero d1) as R1.
  pose proof (UnmarshalYAML_ToData_onto WebAuthnDevice.zero d2) as R2.
  rewrite Heq, R2 in R1. clear Heq R2.
  unfold validDevice, aaguidStored, lastUsedStored in H1, H2.
  apply andb_true_iff in H1, H2. destruct H1 as [Ha1 Ht1], H2 as [Ha2 Ht2].
  unfold LastUsed in R1.
  destruct d1 as [id1 created1 [lastTime1 lastValid1] rpid1 username1 description1
                  kid1 publicKey1 attestation1 transport1 [aaguid1 aaguidValid1]
                  signCount1 clone1].
  destruct d2 as [id2 created2 [lastTime2 lastValid2] rpid2 username2 description2
                  kid2 publicKey2 attestation2 transport2 [aaguid2 aaguidValid2]
                  signCount2 clone2].
  cbn -[time.Unix Time_eqb UUID_eqb Z.leb Z.ltb] in Ha1, Ht1, Ha2, Ht2, R1.
  unfold WebAuthnDevice.set_ID. cbn.
  injection R1 as Hcreated Hlast Hrpid Huser Hdesc Hkid Hkey Hatt Htransport
    Haaguid Hcount Hclone.
  subst.
  assert (Hl : {| NullTime.Time := lastTime1; NullTime.Valid := lastValid1 |}
               = {| NullTime.Time := lastTime2; NullTime.Valid := lastValid2 |}).
  { destruct lastValid1, lastValid2.
    - apply andb_true_iff in Ht1, Ht2. destruct Ht1 as [L1 U1], Ht2 as [L2 U2].
      apply Z.leb_le in L1, L2. apply Z.ltb_lt in U1, U2.
      rewrite !Unix_of_Time in Hlast by (split; assumption). exact (eq_sym Hlast).
    - discriminate.
    - discriminate.
    - apply Time_eqb_eq in Ht1, Ht2. now subst. }
  assert (Hu : {| NullUUID.UUID := aaguid1; NullUUID.Valid := aaguidValid1 |}
               = {| NullUUID.UUID := aaguid2; NullUUID.Valid := aaguidValid2 |}).
  { destruct aaguidValid1, aaguidValid2.
    - apply negb_true_iff in Ha1, Ha2. rewrite Ha1, Ha2 in Haaguid.
      exact (eq_sym Haaguid).
    - apply negb_true_iff in Ha1. apply UUID_eqb_eq in Ha2. subst aaguid2.
      rewrite Ha1, uuid_ID_Nil in Haaguid. discriminate.
    - apply negb_true_iff in Ha2. apply UUID_eqb_eq in Ha1. subst aaguid1.
      rewrite Ha2, uuid_ID_Nil in Haaguid. discriminate.
    - apply UUID_eqb_eq in Ha1, Ha2. now subst. }
  now rewrite Hl, Hu.
Qed.

End CodecFurther.

(** ** The constructor and the translation *)

Lemma credentialOf_fields (device : WebAuthnDevice.t) (aaguid : bytes) :
  credentialOf device aaguid
  = {| Credential.ID := Base64_Bytes (WebAuthnDevice.KID device);
       Credential.PublicKey := WebAuthnDevice.PublicKey device;
       Credential.AttestationType := WebAuthnDevice.AttestationType device;
       Credential.Transport :=
         filter nonEmpty (strings.Split (WebAuthnDevice.Transport device) ","%char);
       Credential.Authenticator :=
         {| Authenticator.AAGUID := aaguid;
            Authenticator.SignCount := WebAuthnDevice.SignCount device;
            Authenticator.CloneWarning := WebAuthnDevice.CloneWarning device |} |}.
Proof.
  unfold credentialOf. now rewrite appendTransports_filter.
Qed.

(** The pieces that the translation keeps of a stored string are tokens. *)
Lemma Split_tokens (s : string) :
  forallb isToken (filter nonEmpty (strings.Split s ","%char)) = true.
Proof.
  pose proof (genSplit_separator_free ","%char _ s eq_refl) as Hfree.
  fold (strings.Split s ","%char) in Hfree.
  induction Hfree as [|t rest Ht _ IH]; [reflexivity|].
  cbn [filter]. unfold nonEmpty at 1.
  destruct (String.eqb t "") eqn:Hempty; cbn [negb]; [exact IH|].
  cbn [forallb]. rewrite IH, andb_true_r.
  unfold isToken. rewrite Hempty. cbn [negb andb].
  apply negb_true_iff. now apply hasComma_Count.
Qed.

Section ConstructorFurther.

Context {E : Externals}.

(** What the constructor copies, whatever becomes of the aaguid. *)
Lemma NewWebAuthnDeviceFromCredential_fields (now : time.Time)
  (rpid username description : string) (credential : Credential.t) :
  let device :=
    NewWebAuthnDeviceFromCredential now rpid username description credential in
  WebAuthnDevice.ID device = 0%Z
  /\ WebAuthnDevice.CreatedAt device = now
  /\ WebAuthnDevice.LastUsedAt device = NullTime.zero
  /\ WebAuthnDevice.RPID device = rpid
  /\ WebAuthnDevice.Username device = username
  /\ WebAuthnDevice.Description device = description
  /\ WebAuthnDevice.KID device = NewBase64 (Credential.ID credential)
  /\ WebAuthnDevice.PublicKey device = Credential.PublicKey credential
  /\ WebAuthnDevice.AttestationType device = Credential.AttestationType credential
  /\ WebAuthnDevice.SignCount device
     = Authenticator.SignCount (Credential.Authenticator credential)
  /\ WebAuthnDevice.CloneWarning device
     = Authenticator.CloneWarning (Credential.Authenticator credential).
Proof.
  unfold NewWebAuthnDeviceFromCredential.
  destruct (uuid_Parse _) as [aaguid [e|]]; [cbn; repeat split|].
  destruct (negb (uuid_ID aaguid =? 0)%Z); cbn; repeat split.
Qed.

(** X7.  Every device the constructor returns is a valid device: its aaguid
    is valid with an identifier that does not read as zero, or unset with all
    bytes zero, and its last use is unset with the zero time. *)
Theorem X7_constructed_device_is_valid (now : time.Time)
  (rpid username description : string) (credential : Credential.t) :
  validDevice
    (NewWebAuthnDeviceFromCredential now rpid username description credential)
  = true.
Proof.
  unfold validDevice, aaguidStored, lastUsedStored.
  destruct (NewWebAuthnDeviceFromCredential_fields now rpid username description
              credential) as (_ & _ & Hlast & _).
  rewrite Hlast, NewWebAuthnDeviceFromCredential_AAGUID.
  apply andb_true_iff. split; [|reflexivity].
  destruct (uuid_Parse _) as [aaguid [e|]]; [apply UUID_eqb_refl|].
  destruct (uuid_ID aaguid =? 0)%Z eqn:Hid; cbn [NullUUID.Valid NullUUID.UUID].
  - apply UUID_eqb_refl.
  - now rewrite Hid.
Qed.

(** X8.  A registration's credential, stored by the constructor and
    translated back for the ceremony engine, is the same credential with the
    marshalled aaguid: id, public key, attestation type, sign count and clone
    warning are those of the registration, and so is the transport list when
    its entries are tokens (not empty, no comma). *)
Theorem X8_constructed_device_translates_back (now : time.Time)
  (rpid username description displayName : string) (credential : Credential.t)
  (aaguid : bytes) :
  forallb isToken (Credential.Transport credential) = true ->
  NullUUID_MarshalBinary
    (WebAuthnDevice.AAGUID
       (NewWebAuthnDeviceFromCredential now rpid username description credential))
  = (aaguid, None) ->
  WebAuthnCredentials
    (userOf username displayName
       [NewWebAuthnDeviceFromCredential now rpid username description credential])
  = [ {| Credential.ID := Credential.ID credential;
         Credential.PublicKey := Credential.PublicKey credential;
         Credential.AttestationType := Credential.AttestationType credential;
         Credential.Transport := Credential.Transport credential;
         Credential.Authenticator :=
           {| Authenticator.AAGUID := aaguid;
              Authenticator.SignCount :=
                Authenticator.SignCount (Credential.Authenticator credential);
              Authenticator.CloneWarning :=
                Authenticator.CloneWarning (Credential.Authenticator credential) |} |} ].
Proof.
  intros Htokens Hmarshal.
  rewrite WebAuthnCredentials_slots. cbn [userOf WebAuthnUser.Devices map].
  unfold credentialSlot. rewrite Hmarshal, credentialOf_fields.
  rewrite NewWebAuthnDeviceFromCredential_Transport.
  rewrite (transports_of_Join _ Htokens).
  destruct (NewWebAuthnDeviceFromCredential_fields now rpid username description
              credential)
    as (_ & _ & _ & _ & _ & _ & Hkid & Hkey & Hatt & Hcount & Hclone).
  now rewrite Hkid, Hkey, Hatt, Hcount, Hclone.
Qed.

(** X9.  The translation cleans the transport list once and for all: a
    device rebuilt by the constructor from its own translated credential
    translates to the same transport list. *)
Theorem X9_transport_list_is_stable (now : time.Time)
  (rpid username description : string) (device : WebAuthnDevice.t)
  (aaguid aaguid' : bytes) :
  Credential.Transport
    (credentialOf
       (NewWebAuthnDeviceFromCredential now rpid username description
          (credentialOf device aaguid))
       aaguid')
  = Credential.Transport (credentialOf device aaguid).
Proof.
  rewrite (credentialOf_Transport
             (NewWebAuthnDeviceFromCredential now rpid username description
                (credentialOf device aaguid))).
  rewrite NewWebAuthnDeviceFromCredential_Transport.
  rewrite (credentialOf_Transport device).
  apply transports_of_Join, Split_tokens.
Qed.

End ConstructorFurther.

(** ** Runs of sign-ins *)

Lemma UpdateSignInInfo_sameButSignIn (d : WebAuthnDevice.t) (config : Config.t)
  (now : time.Time) (signCount : Z) :
  sameButSignIn d (UpdateSignInInfo d config now signCount).
Proof.
  unfold UpdateSignInInfo, sameButSignIn; simpl.
  destruct (String.eqb (WebAuthnDevice.RPID d) ""); simpl; [|repeat split].
  destruct (String.eqb (WebAuthnDevice.AttestationType d) attestationTypeFIDOU2F);
    repeat split.
Qed.

Lemma UpdateSignInInfo_written (d : WebAuthnDevice.t) (config : Config.t)
  (now : time.Time) (signCount : Z) :
  WebAuthnDevice.LastUsedAt (UpdateSignInInfo d config now signCount)
  = {| NullTime.Time := now; NullTime.Valid := true |}
  /\ WebAuthnDevice.SignCount (UpdateSignInInfo d config now signCount) = signCount.
Proof.
  unfold UpdateSignInInfo; simpl.
  destruct (String.eqb (WebAuthnDevice.RPID d) ""); simpl; [|split; reflexivity].
  destruct (String.eqb (WebAuthnDevice.AttestationType d) attestationTypeFIDOU2F);
    split; reflexivity.
Qed.

Lemma signIns_snoc (d : WebAuthnDevice.t) (calls : list SignIn) (c : SignIn) :
  signIns d (calls ++ [c]) = signIn (signIns d calls) c.
Proof.
  unfold signIns. now rewrite fold_left_app.
Qed.

(** X10.  No run of sign-ins, however long and under whatever
    configurations, writes anything but last_used_at, sign_count and rpid:
    id, created_at, username, description, kid, public_key,
    attestation_type, transport, aaguid and clone_warning are those of the
    device before the run. *)
Theorem X10_sign_in_run_frame (calls : list SignIn) :
  forall d : WebAuthnDevice.t, sameButSignIn d (signIns d calls).
Proof.
  unfold signIns.
  induction calls as [|[[config now] signCount] rest IH]; intros d.
  - unfold sameButSignIn. cbn. repeat split.
  - cbn [fold_left signIn].
    pose proof (UpdateSignInInfo_sameButSignIn d config now signCount) as Hstep.
    pose proof (IH (UpdateSignInInfo d config now signCount)) as Hrest.
    unfold sameButSignIn in *.
    decompose [and] Hstep. decompose [and] Hrest.
    repeat split; etransitivity; eassumption.
Qed.

(** X11.  After a run of sign-ins the sign count and the last use are those
    of the last call of the run; no earlier call shows in them, and a lower
    count overwrites a higher one. *)
Theorem X11_last_sign_in_wins (d : WebAuthnDevice.t) (calls : list SignIn)
  (config : Config.t) (now : time.Time) (signCount : Z) :
  WebAuthnDevice.SignCount (signIns d (calls ++ [(config, now, signCount)]))
  = signCount
  /\ WebAuthnDevice.LastUsedAt (signIns d (calls ++ [(config, now, signCount)]))
     = {| NullTime.Time := now; NullTime.Valid := true |}.
Proof.
  rewrite signIns_snoc. cbn [signIn].
  destruct (UpdateSignInInfo_written (signIns d calls) config now signCount)
    as [Hlast Hcount].
  split; assumption.
Qed.

(** Once rpid is set, a sign-in overwrites all that the one before wrote. *)
Lemma UpdateSignInInfo_overwrites (d : WebAuthnDevice.t) (config0 config : Config.t)
  (now0 now : time.Time) (signCount0 signCount : Z) :
  WebAuthnDevice.RPID d <> "" ->
  UpdateSignInInfo (UpdateSignInInfo d config0 now0 signCount0) config now signCount
  = UpdateSignInInfo d config now signCount.
Proof.
  intros Hset. apply String.eqb_neq in Hset.
  unfold UpdateSignInInfo.
  destruct d as [id created last rpid username description kid publicKey
                 attestation transport aaguid count clone].
  cbn in *. rewrite Hset. cbn. rewrite Hset. reflexivity.
Qed.

(** X12.  A sign-in repeated with the same arguments changes nothing more;
    and for a device whose rpid is set, a whole run of sign-ins leaves the
    device that its last call alone would leave. *)
Theorem X12_sign_in_run_collapses (d : WebAuthnDevice.t) (config : Config.t)
  (now : time.Time) (signCount : Z) :
  UpdateSignInInfo (UpdateSignInInfo d config now signCount) config now signCount
  = UpdateSignInInfo d config now signCount
  /\ (WebAuthnDevice.RPID d <> "" ->
      forall calls : list SignIn,
        signIns d (calls ++ [(config, now, signCount)])
        = UpdateSignInInfo d config now signCount).
Proof.
  split.
  - unfold UpdateSignInInfo, attestationTypeFIDOU2F.
    destruct d as [id created last rpid username description kid publicKey
                   attestation transport aaguid count clone].
    cbn.
    destruct (String.eqb rpid "") eqn:Hrpid; cbn; [|now rewrite Hrpid].
    destruct (String.eqb attestation "fido-u2f") eqn:Hatt; cbn.
    + destruct (String.eqb (Config.RPOrigin config) "") eqn:Hc; cbn;
        rewrite ?Hatt; reflexivity.
    + destruct (String.eqb (Config.RPID config) "") eqn:Hc; cbn;
        rewrite ?Hatt; reflexivity.
  - intros Hset calls. rewrite signIns_snoc. cbn [signIn].
    revert d Hset. unfold signIns.
    induction calls as [|[[config0 now0] signCount0] rest IH]; intros d Hset;
      [reflexivity|].
    cbn [fold_left signIn].
    rewrite IH.
    + now apply UpdateSignInInfo_overwrites.
    + pose proof (signIn_frozen d (config0, now0, signCount0) Hset) as Hkept.
      cbn [signIn] in Hkept. now rewrite Hkept.
Qed.

Section SignInExport.

Context {E : Externals}.

(** X13.  A sign-in keeps a device valid for the codec, and shows in its
    export shape: for a device whose aaguid is in a stored state and a time
    whose nanoseconds lie within the second, the updated device is valid, and
    its export shape carries that time as last use and the reported counter. *)
Theorem X13_sign_in_shows_in_export (d : WebAuthnDevice.t) (config : Config.t)
  (now : time.Time) (signCount : Z) :
  aaguidStored d = true ->
  withinSecond now = true ->
  let d' := UpdateSignInInfo d config now signCount in
  validDevice d' = true
  /\ WebAuthnDeviceData.LastUsedAt (ToData d') = Some now
  /\ WebAuthnDeviceData.SignCount (ToData d') = signCount.
Proof.
  intros Hstored Hnow d'.
  destruct (UpdateSignInInfo_written d config now signCount) as [Hlast Hcount].
  destruct (UpdateSignInInfo_sameButSignIn d config now signCount)
    as (_ & _ & _ & _ & _ & _ & _ & _ & Haaguid & _).
  fold d' in Hlast, Hcount, Haaguid.
  assert (Hrange : (0 <= time.nsec now < 1000000000)%Z).
  { unfold withinSecond in Hnow. apply andb_true_iff in Hnow.
    destruct Hnow as [Hlo Hhi]. apply Z.leb_le in Hlo. apply Z.ltb_lt in Hhi.
    split; assumption. }
  repeat split.
  - unfold validDevice, aaguidStored, lastUsedStored in *.
    rewrite Haaguid, Hstored, Hlast. exact Hnow.
  - cbn [ToData WebAuthnDeviceData.LastUsedAt]. unfold LastUsed.
    rewrite Hlast. cbn [NullTime.Valid NullTime.Time].
    now rewrite Unix_of_Time.
  - cbn [ToData WebAuthnDeviceData.SignCount]. exact Hcount.
Qed.

End SignInExport.

(** ** The user adapter, further *)

Lemma HasFIDOU2F_loop_existsb (devices : list WebAuthnDevice.t) :
  HasFIDOU2F_loop devices
  = existsb (fun c => String.eqb (WebAuthnDevice.AttestationType c) "fido-u2f")
            devices.
Proof.
  induction devices as [|c rest IH]; [reflexivity|].
  cbn [HasFIDOU2F_loop existsb]. unfold attestationTypeFIDOU2F. rewrite IH.
  now destruct (String.eqb (WebAuthnDevice.AttestationType c) "fido-u2f").
Qed.

Section UserFurther.

Context {E : Externals}.

Lemma credentialSlot_AttestationType (device : WebAuthnDevice.t) :
  Credential.AttestationType (credentialSlot device) = "fido-u2f" ->
  WebAuthnDevice.AttestationType device = "fido-u2f".
Proof.
  unfold credentialSlot.
  destruct (NullUUID_MarshalBinary (WebAuthnDevice.AAGUID device)) as [aaguid [e|]].
  - discriminate.
  - now rewrite credentialOf_fields.
Qed.

(** X14.  The credential list and the legacy query agree: a credential of
    attestation type "fido-u2f" in the list means [HasFIDOU2F] is true; and
    when the marshaller reports no error on the user's devices, a true
    [HasFIDOU2F] means the list holds such a credential. *)
Theorem X14_legacy_query_agrees_with_credentials (w : WebAuthnUser.t) :
  (Exists (fun c => Credential.AttestationType c = "fido-u2f")
          (WebAuthnCredentials w) ->
   HasFIDOU2F w = true)
  /\ (marshals (WebAuthnUser.Devices w) ->
      HasFIDOU2F w = true ->
      Exists (fun c => Credential.AttestationType c = "fido-u2f")
             (WebAuthnCredentials w)).
Proof.
  unfold HasFIDOU2F, marshals. rewrite HasFIDOU2F_loop_existsb, WebAuthnCredentials_slots.
  split.
  - intros Hex. apply Exists_exists in Hex. destruct Hex as (c & Hin & Hc).
    apply in_map_iff in Hin. destruct Hin as (device & <- & Hdev).
    apply existsb_exists. exists device. split; [exact Hdev|].
    apply String.eqb_eq. now apply credentialSlot_AttestationType.
  - intros Hm Hq. apply existsb_exists in Hq. destruct Hq as (device & Hdev & Hatt).
    apply String.eqb_eq in Hatt.
    apply Exists_exists. exists (credentialSlot device). split.
    + now apply in_map.
    + rewrite Forall_forall in Hm. specialize (Hm device Hdev).
      unfold credentialSlot.
      destruct (NullUUID_MarshalBinary (WebAuthnDevice.AAGUID device))
        as [aaguid [e|]]; [discriminate|].
      now rewrite credentialOf_fields.
Qed.

(** X15.  When the marshaller reports no error on the user's devices, the
    list holds the credential of every device, in the order of the devices,
    and nothing else: the credential at a device's index carries the
    device's kid bytes, public key, attestation type, sign count and clone
    warning, and the marshalled aaguid. *)
Theorem X15_every_device_translated (w : WebAuthnUser.t) :
  marshals (WebAuthnUser.Devices w) ->
  WebAuthnCredentials w = map translated (WebAuthnUser.Devices w)
  /\ forall (i : nat) (device : WebAuthnDevice.t),
       nth_error (WebAuthnUser.Devices w) i = Some device ->
       exists credential : Credential.t,
         nth_error (WebAuthnCredentials w) i = Some credential
         /\ Credential.ID credential = Base64_Bytes (WebAuthnDevice.KID device)
         /\ Credential.PublicKey credential = WebAuthnDevice.PublicKey device
         /\ Credential.AttestationType credential
            = WebAuthnDevice.AttestationType device
         /\ Authenticator.AAGUID (Credential.Authenticator credential)
            = fst (NullUUID_MarshalBinary (WebAuthnDevice.AAGUID device))
         /\ Authenticator.SignCount (Credential.Authenticator credential)
            = WebAuthnDevice.SignCount device
         /\ Authenticator.CloneWarning (Credential.Authenticator credential)
            = WebAuthnDevice.CloneWarning device.
Proof.
  intros Hm.
  assert (Hall : WebAuthnCredentials w = map translated (WebAuthnUser.Devices w)).
  { rewrite WebAuthnCredentials_slots. apply map_ext_in.
    intros device Hdev. unfold marshals in Hm. rewrite Forall_forall in Hm.
    specialize (Hm device Hdev). unfold credentialSlot, translated.
    destruct (NullUUID_MarshalBinary (WebAuthnDevice.AAGUID device))
      as [aaguid [e|]]; [discriminate | reflexivity]. }
  split; [exact Hall|].
  intros i device Hi. exists (translated device). split.
  - rewrite Hall. now apply map_nth_error.
  - unfold translated. rewrite credentialOf_fields. cbn. repeat split.
Qed.

End UserFurther.

(** X16.  Sign-ins do not change the answer of the legacy query: whatever
    runs of sign-ins the devices of a user go through, [HasFIDOU2F] answers
    the same. *)
Theorem X16_sign_ins_keep_legacy_answer (username displayName : string)
  (devices : list WebAuthnDevice.t) (runs : WebAuthnDevice.t -> list SignIn) :
  HasFIDOU2F
    (userOf username displayName (map (fun d => signIns d (runs d)) devices))
  = HasFIDOU2F (userOf username displayName devices).
Proof.
  unfold HasFIDOU2F. cbn [userOf WebAuthnUser.Devices].
  induction devices as [|d rest IH]; [reflexivity|].
  cbn [map HasFIDOU2F_loop]. rewrite IH.
  assert (Hatt : forall (calls : list SignIn) (d0 : WebAuthnDevice.t),
             WebAuthnDevice.AttestationType (signIns d0 calls)
             = WebAuthnDevice.AttestationType d0).
  { unfold signIns. induction calls as [|[[config now] signCount] more IHc];
      intros d0; [reflexivity|].
    cbn [fold_left signIn]. rewrite IHc.
    apply (UpdateSignInInfo_sameButSignIn d0 config now signCount). }
  now rewrite Hatt.
Qed.

(** X17.  The identity handed to the ceremony engine tells users apart: two
    users have the same [WebAuthnID] if and only if they have the same
    username; display names and devices play no part. *)
Theorem X17_WebAuthnID_identifies_username (w1 w2 : WebAuthnUser.t) :
  WebAuthnID w1 = WebAuthnID w2
  <-> WebAuthnUser.Username w1 = WebAuthnUser.Username w2.
Proof.
  unfold WebAuthnID. split.
  - intros H. apply (f_equal string_of_list_byte) in H.
    now rewrite !string_of_list_byte_of_string in H.
  - now intros ->.
Qed.

Section DescriptorsFurther.

Context {E : Externals}.

Variable CredentialDescriptor : Type.
Variable CredentialDescriptor_zero : CredentialDescriptor.
Variable Descriptor : Credential.t -> CredentialDescriptor.

Lemma WebAuthnCredentialDescriptors_loop_map (credentials : list Credential.t) :
  forall pre : list CredentialDescriptor,
    WebAuthnCredentialDescriptors_loop CredentialDescriptor Descriptor
      (List.length pre) credentials
      (pre ++ make CredentialDescriptor_zero (List.length credentials))
    = pre ++ map Descriptor credentials.
Proof.
  induction credentials as [|credential rest IH]; intros pre; simpl.
  - reflexivity.
  - rewrite slice_set_app.
    next_slot pre (Descriptor credential).
    rewrite (IH (pre ++ [Descriptor credential])), <- app_assoc. reflexivity.
Qed.

(** X18.  The descriptor list has one descriptor per device of the user, in
    the order of the devices: the descriptor at an index is the descriptor
    of the credential that [WebAuthnCredentials] has at that index. *)
Theorem X18_descriptors_follow_credentials (w : WebAuthnUser.t) :
  WebAuthnCredentialDescriptors CredentialDescriptor CredentialDescriptor_zero
    Descriptor w
  = map Descriptor (WebAuthnCredentials w)
  /\ List.length
       (WebAuthnCredentialDescriptors CredentialDescriptor
          CredentialDescriptor_zero Descriptor w)
     = List.length (WebAuthnUser.Devices w).
Proof.
  assert (Hmap : WebAuthnCredentialDescriptors CredentialDescriptor
                   CredentialDescriptor_zero Descriptor w
                 = map Descriptor (WebAuthnCredentials w)).
  { unfold WebAuthnCredentialDescriptors.
    exact (WebAuthnCredentialDescriptors_loop_map (WebAuthnCredentials w) []). }
  split; [exact Hmap|].
  rewrite Hmap, length_map, WebAuthnCredentials_slots, length_map. reflexivity.
Qed.

End DescriptorsFurther.

(** ** Operations composed *)

Section Composed.

Context {E : Externals}.

(** X19.  Decoding is idempotent: decoding a node a second time into the
    receiver that the first decode left gives the same receiver and the same
    error. *)
Theorem X19_decode_twice_is_decode_once (d : WebAuthnDevice.t) (value : yaml.Node) :
  UnmarshalYAML (fst (UnmarshalYAML d value)) value = UnmarshalYAML d value.
Proof.
  destruct value as [o|e]; [|reflexivity].
  rewrite (UnmarshalYAML_Mapping d o).
  destruct (base64_DecodeString (WebAuthnDeviceData.PublicKey o))
    as [publicKey [e|]] eqn:Hkey.
  - cbn [fst]. rewrite UnmarshalYAML_Mapping, Hkey. now destruct d.
  - destruct (uuid_Parse (WebAuthnDeviceData.AAGUID o)) as [aaguid [e|]] eqn:Hu.
    + cbn [fst]. rewrite UnmarshalYAML_Mapping, Hkey, Hu. now destruct d.
    + destruct (base64_DecodeString (WebAuthnDeviceData.KID o))
        as [kid [e|]] eqn:Hkid;
        cbn [fst]; rewrite UnmarshalYAML_Mapping, Hkey, Hu, Hkid;
        destruct d; cbn;
        destruct (uuid_ID aaguid =? 0)%Z, (WebAuthnDeviceData.LastUsedAt o);
        reflexivity.
Qed.

(** X20.  A device registered under an rpid that is not empty keeps that
    rpid through every run of sign-ins, whatever the configurations and
    whatever its attestation type. *)
Theorem X20_registered_rpid_is_kept (now : time.Time)
  (rpid username description : string) (credential : Credential.t)
  (calls : list SignIn) :
  rpid <> "" ->
  WebAuthnDevice.RPID
    (signIns
       (NewWebAuthnDeviceFromCredential now rpid username description credential)
       calls)
  = rpid.
Proof.
  intros Hset.
  destruct (NewWebAuthnDeviceFromCredential_fields now rpid username description
              credential) as (_ & _ & _ & Hrpid & _).
  rewrite signIns_frozen; [exact Hrpid|].
  now rewrite Hrpid.
Qed.

Context {L : ExternalsLaws E}.

(** X21.  A device fresh from the constructor survives the export codec
    whole: decoding its encoding into a fresh Device gives the device back,
    id included. *)
Theorem X21_constructed_device_roundtrips (now : time.Time)
  (rpid username description : string) (credential : Credential.t) :
  UnmarshalYAML WebAuthnDevice.zero
    (yaml.Mapping
       (ToData
          (NewWebAuthnDeviceFromCredential now rpid username description credential)))
  = (NewWebAuthnDeviceFromCredential now rpid username description credential, None).
Proof.
  rewrite UnmarshalYAML_ToData_onto. f_equal.
  unfold LastUsed, NewWebAuthnDeviceFromCredential.
  destruct (uuid_Parse _) as [aaguid [e|]].
  - cbn. now rewrite uuid_ID_Nil.
  - destruct (uuid_ID aaguid =? 0)%Z eqn:Hid; cbn.
    + now rewrite uuid_ID_Nil.
    + now rewrite Hid.
Qed.

End Composed.

(** ** The further properties on sample values *)

(** X2 on john's key as receiver and a record with the nil aaguid text and
    no last use. *)
Lemma X2_decode_keeps_receiver_values_witness :
  let o := Sample.record "AQID" "pQEC" Sample.nilText in
  let d' := fst (UnmarshalYAML (E := Reference.golibs) Sample.key (yaml.Mapping o)) in
  snd (UnmarshalYAML (E := Reference.golibs) Sample.key (yaml.Mapping o)) = None
  /\ WebAuthnDevice.ID d' = 7%Z
  /\ WebAuthnDevice.AAGUID d' = WebAuthnDevice.AAGUID Sample.key
  /\ WebAuthnDevice.LastUsedAt d' = WebAuthnDevice.LastUsedAt Sample.key.
Proof.
  intros o d'.
  destruct (X2_decode_keeps_receiver_values (E := Reference.golibs) Sample.key o
              eq_refl) as (Hid & Haaguid & Hlast).
  split; [reflexivity|].
  split; [exact Hid|].
  split; [apply Haaguid; reflexivity | apply Hlast; reflexivity].
Defined.

(** X3 on john's key as receiver. *)
Lemma X3_decode_keeps_aaguid_stored_witness :
  aaguidStored (E := Reference.golibs) Sample.key = true
  /\ aaguidStored (E := Reference.golibs)
       (fst (UnmarshalYAML (E := Reference.golibs) Sample.key
               (yaml.Mapping (Sample.record "AQID" "pQEC" Sample.nilText))))
     = true.
Proof.
  split; [reflexivity|].
  apply (X3_decode_keeps_aaguid_stored (E := Reference.golibs)). reflexivity.
Defined.

(** X4: john's migrated device, which has no aaguid and no last use, decoded
    into the laptop: the laptop's aaguid stays. *)
Lemma X4_roundtrip_onto_used_receiver_witness :
  ExternalsLaws Reference.golibs
  /\ validDevice (E := Reference.golibs) Sample.legacy = true
  /\ WebAuthnDevice.AAGUID
       (fst (UnmarshalYAML (E := Reference.golibs) Sample.laptop
               (yaml.Mapping (ToData (E := Reference.golibs) Sample.legacy))))
     = WebAuthnDevice.AAGUID Sample.laptop.
Proof.
  split; [exact golibs_laws|].
  split; [reflexivity|].
  rewrite (X4_roundtrip_onto_used_receiver (L := golibs_laws) Sample.laptop
             Sample.legacy eq_refl).
  reflexivity.
Defined.

(** X5 on john's key with its aaguid replaced by the all-zero UUID, marked
    valid. *)
Lemma X5_zero_aaguid_decodes_unset_witness :
  let d := WebAuthnDevice.set_AAGUID
             {| NullUUID.UUID := uuid.Nil; NullUUID.Valid := true |} Sample.key in
  ExternalsLaws Reference.golibs
  /\ NullUUID.UUID (WebAuthnDevice.AAGUID d) = uuid.Nil
  /\ WebAuthnDevice.AAGUID
       (fst (UnmarshalYAML (E := Reference.golibs) WebAuthnDevice.zero
               (yaml.Mapping (ToData (E := Reference.golibs) d))))
     = NullUUID.zero.
Proof.
  intros d.
  split; [exact golibs_laws|].
  split; [reflexivity|].
  apply (X5_zero_aaguid_decodes_unset (L := golibs_laws) d). reflexivity.
Defined.

(** X6 on john's key under two ids. *)
Lemma X6_export_shape_determines_device_witness :
  let d2 := WebAuthnDevice.set_ID 99 Sample.key in
  ExternalsLaws Reference.golibs
  /\ validDevice (E := Reference.golibs) Sample.key = true
  /\ validDevice (E := Reference.golibs) d2 = true
  /\ ToData (E := Reference.golibs) Sample.key = ToData (E := Reference.golibs) d2
  /\ WebAuthnDevice.set_ID 0 Sample.key = WebAuthnDevice.set_ID 0 d2.
Proof.
  intros d2.
  split; [exact golibs_laws|].
  split; [reflexivity|].
  split; [reflexivity|].
  split; [reflexivity|].
  apply (X6_export_shape_determines_device (L := golibs_laws) Sample.key d2);
    reflexivity.
Defined.

(** X8 on a registration with the aaguid f8a011f3-8c0a-4d15-8006-17111f9edc7d:
    the credential comes back whole. *)
Lemma X8_constructed_device_translates_back_witness :
  let credential :=
    {| Credential.ID := [x31; x32; x33];
       Credential.PublicKey := [xa5; x01; x02];
       Credential.AttestationType := "packed";
       Credential.Transport := ["usb"; "nfc"];
       Credential.Authenticator :=
         {| Authenticator.AAGUID := uuid.to_bytes Sample.aaguid;
            Authenticator.SignCount := 1%Z;
            Authenticator.CloneWarning := false |} |} in
  let device :=
    NewWebAuthnDeviceFromCredential (E := Reference.golibs) Sample.now
      "login.example.com" "john" "Key" credential in
  forallb isToken (Credential.Transport credential) = true
  /\ @NullUUID_MarshalBinary Reference.golibs (WebAuthnDevice.AAGUID device)
     = (uuid.to_bytes Sample.aaguid, None)
  /\ WebAuthnCredentials (E := Reference.golibs) (userOf "john" "John Doe" [device])
     = [credential].
Proof.
  intros credential device.
  split; [reflexivity|].
  split; [reflexivity|].
  exact (X8_constructed_device_translates_back (E := Reference.golibs) Sample.now
           "login.example.com" "john" "Key" "John Doe" credential
           (uuid.to_bytes Sample.aaguid) eq_refl eq_refl).
Defined.

(** X12 on john's key, whose rpid is set: two sign-ins leave what the second
    alone leaves. *)
Lemma X12_sign_in_run_collapses_witness :
  WebAuthnDevice.RPID Sample.key <> ""
  /\ signIns Sample.key
       ([(Sample.otherConfig, Sample.now, 2%Z)] ++ [(Sample.config, Sample.later, 5%Z)])
     = UpdateSignInInfo Sample.key Sample.config Sample.later 5.
Proof.
  split; [discriminate|].
  apply (proj2 (X12_sign_in_run_collapses Sample.key Sample.config Sample.later 5)).
  discriminate.
Defined.

(** X13 on the first sign-in of john's migrated device. *)
Lemma X13_sign_in_shows_in_export_witness :
  aaguidStored (E := Reference.golibs) Sample.legacy = true
  /\ withinSecond Sample.now = true
  /\ WebAuthnDeviceData.LastUsedAt
       (ToData (E := Reference.golibs)
          (UpdateSignInInfo Sample.legacy Sample.config Sample.now 5))
     = Some Sample.now.
Proof.
  split; [reflexivity|].
  split; [reflexivity|].
  exact (proj1 (proj2
           (X13_sign_in_shows_in_export (E := Reference.golibs) Sample.legacy
              Sample.config Sample.now 5 eq_refl eq_refl))).
Defined.

(** X14 on john, who has a migrated device. *)
Lemma X14_legacy_query_agrees_with_credentials_witness :
  marshals (E := Reference.golibs) (WebAuthnUser.Devices Sample.john)
  /\ HasFIDOU2F Sample.john = true
  /\ Exists (fun c => Credential.AttestationType c = "fido-u2f")
            (WebAuthnCredentials (E := Reference.golibs) Sample.john).
Proof.
  assert (Hm : marshals (E := Reference.golibs) (WebAuthnUser.Devices Sample.john))
    by (repeat constructor).
  split; [exact Hm|].
  split; [reflexivity|].
  exact (proj2 (X14_legacy_query_agrees_with_credentials (E := Reference.golibs)
                  Sample.john) Hm eq_refl).
Defined.

(** X15 on john's three devices. *)
Lemma X15_every_device_translated_witness :
  marshals (E := Reference.golibs) (WebAuthnUser.Devices Sample.john)
  /\ WebAuthnCredentials (E := Reference.golibs) Sample.john
     = map (translated (E := Reference.golibs)) (WebAuthnUser.Devices Sample.john).
Proof.
  assert (Hm : marshals (E := Reference.golibs) (WebAuthnUser.Devices Sample.john))
    by (repeat constructor).
  split; [exact Hm|].
  exact (proj1 (X15_every_device_translated (E := Reference.golibs) Sample.john Hm)).
Defined.

(** X20 on a registration stored under login.example.com and signed in
    twice under other configurations. *)
Lemma X20_registered_rpid_is_kept_witness :
  "login.example.com" <> ""
  /\ WebAuthnDevice.RPID
       (signIns
          (NewWebAuthnDeviceFromCredential (E := Reference.golibs) Sample.now
             "login.example.com" "john" "Key" Sample.registration)
          [(Sample.otherConfig, Sample.later, 2%Z);
           (Sample.otherConfig, Sample.later, 3%Z)])
     = "login.example.com".
Proof.
  split; [discriminate|].
  apply (X20_registered_rpid_is_kept (E := Reference.golibs)). discriminate.
Defined.

(** X21 on the sample registration. *)
Lemma X21_constructed_device_roundtrips_witness :
  ExternalsLaws Reference.golibs
  /\ UnmarshalYAML (E := Reference.golibs) WebAuthnDevice.zero
       (yaml.Mapping
          (ToData (E := Reference.golibs)
             (NewWebAuthnDeviceFromCredential (E := Reference.golibs) Sample.now
                "login.example.com" "john" "Key" Sample.registration)))
     = (NewWebAuthnDeviceFromCredential (E := Reference.golibs) Sample.now
          "login.example.com" "john" "Key" Sample.registration, None).
Proof.
  split; [exact golibs_laws|].
  exact (X21_constructed_device_roundtrips (L := golibs_laws) Sample.now
           "login.example.com" "john" "Key" Sample.registration).
Defined.
